(** * Reporting aggregation of the nightclub management dashboard

    A shallow embedding of the aggregation code of
    [src/components/Reports.tsx] ([loadReportsData], [loadTransactions],
    [loadDailyReports], [calculateStats], [exportToCSV]) and of the logic
    of the Dashboard component (sign-in profile, role checks, cart,
    dashboard figures), with the properties the specification states
    about the former and further properties read off the code.

    Conventions of the embedding.
    - A JavaScript [number] that holds money or a quantity is an exact
      rational ([Q], compared with [==]); rounding, [NaN] and infinities of
      IEEE doubles are outside the model.  Array lengths and the [count]
      tallies are natural numbers.
    - A plain object used as a dictionary is the ordered list of its own
      properties, enumerated the way [Object.entries] does.  Property names
      inherited from [Object.prototype] ([constructor], [toString], ...) are
      outside the model.
    - A [Date] built from a [YYYY-MM-DD] string is the number of whole days
      since 1970-01-01; [d.setDate(d.getDate() + 1)] moves to the next day,
      which is what it does in a host whose UTC offset does not change over
      the range.
    - The hosted store ([blink.db]) is a list of rows of the signed-in user,
      and a [where] range on a text column compares text in code-unit order.
    - [JSON.parse] is the host's: the text of the [items] column is
      represented by what parsing makes of it ([ItemsText]).

    Layout: the host language ([JS]), the data model, the store, the
    Reports state and its operations, the vocabulary of the
    specification ([Spec]), sample data, the Dashboard component, and
    then the lemmas, the theorems C1 to C10 and the further properties
    X1 to X16. *)

From Stdlib Require Import List String Ascii Bool ZArith NArith QArith.
From Stdlib Require Import Lia Lqa Permutation Sorted.
Import ListNotations.

Local Open Scope string_scope.
Local Open Scope Q_scope.

(* ================================================================= *)
(** ** The host language *)

Module JS.

(** What can be thrown inside the code under study. *)
Inductive Exn : Type := SyntaxError | TypeError.

(** A computation either completes with a value or throws. *)
Inductive Completion (A : Type) : Type :=
| Normal (a : A)
| Throw (e : Exn).
Arguments Normal {A} a.
Arguments Throw {A} e.

Definition bind {A B : Type} (c : Completion A) (k : A -> Completion B)
  : Completion B :=
  match c with
  | Normal a => k a
  | Throw e => Throw e
  end.

(** *** Plain objects used as dictionaries

    The own properties of the object, in the order they were created. *)
Definition Obj (V : Type) : Type := list (string * V).

(** [o[k]]: [None] stands for [undefined]. *)
Fixpoint get {V : Type} (o : Obj V) (k : string) : option V :=
  match o with
  | [] => None
  | (k', v) :: o' => if (k' =? k)%string then Some v else get o' k
  end.

(** [o[k] = v]: an existing property keeps its place, a new one is
    created last. *)
Fixpoint set {V : Type} (o : Obj V) (k : string) (v : V) : Obj V :=
  match o with
  | [] => [(k, v)]
  | (k', v') :: o' =>
      if (k' =? k)%string then (k', v) :: o' else (k', v') :: set o' k v
  end.

(** In-place update of the value stored under [k] ([o[k].f += ...]). *)
Fixpoint alter {V : Type} (f : V -> V) (o : Obj V) (k : string) : Obj V :=
  match o with
  | [] => []
  | (k', v') :: o' =>
      if (k' =? k)%string then (k', f v') :: o' else (k', v') :: alter f o' k
  end.

(** *** Array indices

    A property name is an array index when it is the canonical decimal
    form of an integer below [2^32 - 1]. *)
Definition digit (c : ascii) : option N :=
  let n := N_of_ascii c in
  if ((48 <=? n) && (n <=? 57))%N then Some (n - 48)%N else None.

Fixpoint digits (s : string) (acc : N) : option N :=
  match s with
  | EmptyString => Some acc
  | String c s' =>
      match digit c with
      | Some d => digits s' (10 * acc + d)%N
      | None => None
      end
  end.

Definition array_index (k : string) : option N :=
  match k with
  | EmptyString => None
  | String c rest =>
      if (N_of_ascii c =? 48)%N
      then match rest with EmptyString => Some 0%N | _ => None end
      else match digits k 0 with
           | Some n => if (n <? 4294967295)%N then Some n else None
           | None => None
           end
  end.

Definition is_array_index (k : string) : bool :=
  match array_index k with Some _ => true | None => false end.

(** *** [Object.entries]

    Own properties whose name is an array index come first, in ascending
    numeric order; the others follow in creation order. *)
Fixpoint insert_index {V : Type} (n : N) (kv : string * V)
         (l : list (N * (string * V))) : list (N * (string * V)) :=
  match l with
  | [] => [(n, kv)]
  | (m, kv') :: l' =>
      if (n <=? m)%N then (n, kv) :: l
      else (m, kv') :: insert_index n kv l'
  end.

Fixpoint index_props {V : Type} (o : Obj V) : list (N * (string * V)) :=
  match o with
  | [] => []
  | kv :: o' =>
      match array_index (fst kv) with
      | Some n => insert_index n kv (index_props o')
      | None => index_props o'
      end
  end.

Definition named_props {V : Type} (o : Obj V) : list (string * V) :=
  filter (fun kv => negb (is_array_index (fst kv))) o.

Definition entries {V : Type} (o : Obj V) : list (string * V) :=
  map snd (index_props o) ++ named_props o.

(** *** [Array.prototype.sort] with a comparator

    The sort is stable: [a] stays before a later [b] unless
    [cmp a b > 0].  For a comparator that is a consistent ordering every
    stable sort returns this list. *)
Fixpoint sort_insert {A : Type} (cmp : A -> A -> Q) (a : A) (l : list A)
  : list A :=
  match l with
  | [] => [a]
  | b :: l' =>
      if Qle_bool (cmp a b) 0 then a :: b :: l'
      else b :: sort_insert cmp a l'
  end.

Fixpoint sort {A : Type} (cmp : A -> A -> Q) (l : list A) : list A :=
  match l with
  | [] => []
  | a :: l' => sort_insert cmp a (sort cmp l')
  end.

(** [Array.prototype.slice(0, n)] and [Array.prototype.join]. *)
Definition slice0 {A : Type} (n : nat) (l : list A) : list A := firstn n l.
Definition join (sep : string) (l : list string) : string :=
  String.concat sep l.

(** [s.includes(c)] for a one-character needle. *)
Fixpoint includes (s : string) (c : ascii) : bool :=
  match s with
  | EmptyString => false
  | String c' s' => if Ascii.eqb c' c then true else includes s' c
  end.

(** *** [toISOString().split('T')[0]] of a day number

    The civil date of day [z] counted from 1970-01-01, as [YYYY-MM-DD]
    (years outside 0..9999 take the signed six-digit form). *)
Definition digit_char (n : Z) : ascii := ascii_of_N (Z.to_N (48 + n mod 10)).

Fixpoint pad (width : nat) (n : Z) (acc : string) : string :=
  match width with
  | O => acc
  | S w => pad w (n / 10) (String (digit_char n) acc)
  end.

Definition civil (z : Z) : Z * Z * Z :=
  let z := (z + 719468)%Z in
  let era := (z / 146097)%Z in
  let doe := (z - era * 146097)%Z in
  let yoe := ((doe - doe / 1460 + doe / 36524 - doe / 146096) / 365)%Z in
  let doy := (doe - (365 * yoe + yoe / 4 - yoe / 100))%Z in
  let mp := ((5 * doy + 2) / 153)%Z in
  let d := (doy - (153 * mp + 2) / 5 + 1)%Z in
  let m := (if mp <? 10 then mp + 3 else mp - 9)%Z in
  let y := (yoe + era * 400 + (if m <=? 2 then 1 else 0))%Z in
  (y, m, d).

Definition isoDate (z : Z) : string :=
  let '(y, m, d) := civil z in
  let year :=
    if ((0 <=? y) && (y <=? 9999))%Z then pad 4 y ""
    else if (y <? 0)%Z then "-" ++ pad 6 (- y) ""
    else "+" ++ pad 6 y "" in
  year ++ "-" ++ pad 2 m "" ++ "-" ++ pad 2 d "".

End JS.

Notation "x <- c ;; k" := (JS.bind c (fun x => k))
  (at level 61, c at next level, right associativity).

(* ================================================================= *)
(** ** Data model *)

(** An item line of a transaction, as the billing screen writes it. *)
Module CartItem.
Record t : Type := { name : string; price : Q; quantity : Q }.
End CartItem.

(** The [items] column holds text.  A value of the column is classified
    by what [JSON.parse(t.items || '[]')] followed by [items.forEach] makes
    of it. *)
Inductive ItemsText : Type :=
| Blank                          (* null, undefined or the empty string *)
| Unparseable (text : string)    (* text that [JSON.parse] rejects *)
| NotAnArray (text : string)     (* JSON text of a value without [forEach] *)
| ItemLines (lines : list CartItem.t).  (* JSON text of an array of lines *)

Module Transaction.
Record t : Type := {
  id : string;
  memberName : string;
  membershipType : string;
  items : ItemsText;
  originalAmount : Q;
  discountAmount : Q;
  finalAmount : Q;
  paymentMethod : string;
  transactionDate : string;
  cashierName : string;
  isRefund : Z;
  refundReason : option string
}.
End Transaction.

Module TopItem.
Record t : Type := { item : string; quantity : Q; revenue : Q }.
End TopItem.

Module PaymentMethod.
Record t : Type := { method : string; amount : Q; count : nat }.
End PaymentMethod.

Module DailyReport.
Record t : Type := {
  date : string;
  totalSales : Q;
  totalRefunds : Q;
  netRevenue : Q;
  transactionCount : nat;
  memberCheckIns : nat;
  topItems : list TopItem.t;
  paymentMethods : list PaymentMethod.t
}.
End DailyReport.

Module Stats.
Record t : Type := {
  totalSales : Q;
  totalRefunds : Q;
  netRevenue : Q;
  totalTransactions : nat;
  averageTransaction : Q;
  topMembershipType : string;
  topPaymentMethod : string
}.
End Stats.

(* ================================================================= *)
(** ** The hosted store *)

Module Store.

Record CheckIn : Type := { checkInTime : string }.

Record Db : Type := {
  db_transactions : list Transaction.t;
  db_checkIns : list CheckIn
}.

(** [{ gte: lo, lte: hi }] on a text column. *)
Definition within (lo hi v : string) : bool :=
  ((lo <=? v) && (v <=? hi))%string.

Definition transactions_list (db : Db) (lo hi : string)
  : list Transaction.t :=
  filter (fun t => within lo hi (Transaction.transactionDate t))
         (db_transactions db).

Definition checkIns_list (db : Db) (lo hi : string) : list CheckIn :=
  filter (fun c => within lo hi (checkInTime c)) (db_checkIns db).

(** [orderBy: { transactionDate: 'desc' }]. *)
Fixpoint insert_desc (t : Transaction.t) (l : list Transaction.t)
  : list Transaction.t :=
  match l with
  | [] => [t]
  | u :: l' =>
      if (Transaction.transactionDate u <=? Transaction.transactionDate t)%string
      then t :: l
      else u :: insert_desc t l'
  end.

Definition order_desc (l : list Transaction.t) : list Transaction.t :=
  fold_right insert_desc [] l.

End Store.

(* ================================================================= *)
(** ** The state of the Reports component

    The part of the component state that the operations below read or
    write; dates are day numbers. *)

Record DateRange : Type := { startDate : Z; endDate : Z }.

Record State : Type := {
  transactions : list Transaction.t;
  dailyReports : list DailyReport.t;
  stats : Stats.t;
  dateRange : DateRange;
  filterMemberType : string;
  filterPaymentMethod : string
}.

Definition setTransactions (v : list Transaction.t) (st : State) : State :=
  {| transactions := v; dailyReports := dailyReports st; stats := stats st;
     dateRange := dateRange st; filterMemberType := filterMemberType st;
     filterPaymentMethod := filterPaymentMethod st |}.

Definition setDailyReports (v : list DailyReport.t) (st : State) : State :=
  {| transactions := transactions st; dailyReports := v; stats := stats st;
     dateRange := dateRange st; filterMemberType := filterMemberType st;
     filterPaymentMethod := filterPaymentMethod st |}.

Definition setStats (v : Stats.t) (st : State) : State :=
  {| transactions := transactions st; dailyReports := dailyReports st;
     stats := v; dateRange := dateRange st;
     filterMemberType := filterMemberType st;
     filterPaymentMethod := filterPaymentMethod st |}.

(** [Number(t.isRefund) === 0] and [Number(t.isRefund) === 1]. *)
Definition is_sale (t : Transaction.t) : bool :=
  (Transaction.isRefund t =? 0)%Z.
Definition is_refund (t : Transaction.t) : bool :=
  (Transaction.isRefund t =? 1)%Z.

(** [list.reduce((sum, t) => sum + Number(t.finalAmount), 0)]. *)
Definition sum_finalAmount (l : list Transaction.t) : Q :=
  fold_left (fun sum t => sum + Transaction.finalAmount t) l 0.

(* ================================================================= *)
(** ** [loadTransactions] *)

(** The rows fetched for the date range, newest first. *)
Definition allTransactions (db : Store.Db) (st : State) : list Transaction.t :=
  Store.order_desc
    (Store.transactions_list db
       (JS.isoDate (startDate (dateRange st)))
       (JS.isoDate (endDate (dateRange st)) ++ "T23:59:59")).

Definition applyFilters (memberType paymentMethod : string)
           (all : list Transaction.t) : list Transaction.t :=
  let filteredTransactions := all in
  let filteredTransactions :=
    if negb (memberType =? "all")%string
    then filter (fun t => (Transaction.membershipType t =? memberType)%string)
                filteredTransactions
    else filteredTransactions in
  let filteredTransactions :=
    if negb (paymentMethod =? "all")%string
    then filter (fun t => (Transaction.paymentMethod t =? paymentMethod)%string)
                filteredTransactions
    else filteredTransactions in
  filteredTransactions.

Definition loadTransactions (db : Store.Db) (st : State) : State :=
  setTransactions
    (applyFilters (filterMemberType st) (filterPaymentMethod st)
                  (allTransactions db st))
    st.

(* ================================================================= *)
(** ** [loadDailyReports] *)

Module Daily.

(** The value kept per item name in [itemCounts]. *)
Record ItemCount : Type := { quantity : Q; revenue : Q }.

(** The value kept per payment method in [paymentCounts]. *)
Record PaymentCount : Type := { amount : Q; count : nat }.

(** [JSON.parse(t.items || '[]')], then the array the inner [forEach]
    walks; a value that is no array has no [forEach]. *)
Definition parse_items (x : ItemsText) : JS.Completion (list CartItem.t) :=
  match x with
  | Blank => JS.Normal []
  | Unparseable _ => JS.Throw JS.SyntaxError
  | NotAnArray _ => JS.Throw JS.TypeError
  | ItemLines lines => JS.Normal lines
  end.

(** The body of [items.forEach]. *)
Definition add_item (itemCounts : JS.Obj ItemCount) (item : CartItem.t)
  : JS.Obj ItemCount :=
  let itemCounts :=
    match JS.get itemCounts (CartItem.name item) with
    | None =>
        JS.set itemCounts (CartItem.name item)
               {| quantity := 0; revenue := 0 |}
    | Some _ => itemCounts
    end in
  JS.alter
    (fun c =>
       {| quantity := quantity c + CartItem.quantity item;
          revenue := revenue c + CartItem.price item * CartItem.quantity item |})
    itemCounts (CartItem.name item).

(** [sales.forEach(t => ...)]: the first payload that throws ends the
    walk. *)
Fixpoint itemCounts_from (itemCounts : JS.Obj ItemCount)
         (sales : list Transaction.t) : JS.Completion (JS.Obj ItemCount) :=
  match sales with
  | [] => JS.Normal itemCounts
  | t :: rest =>
      items <- parse_items (Transaction.items t) ;;
      itemCounts_from (fold_left add_item items itemCounts) rest
  end.

Definition itemCounts (sales : list Transaction.t)
  : JS.Completion (JS.Obj ItemCount) :=
  itemCounts_from [] sales.

Definition topItems_of (itemCounts : JS.Obj ItemCount) : list TopItem.t :=
  JS.slice0 5
    (JS.sort (fun a b => TopItem.revenue b - TopItem.revenue a)
       (map (fun '(item, data) =>
               {| TopItem.item := item;
                  TopItem.quantity := quantity data;
                  TopItem.revenue := revenue data |})
            (JS.entries itemCounts))).

(** The body of [dayTransactions.forEach]. *)
Definition add_payment (paymentCounts : JS.Obj PaymentCount)
           (t : Transaction.t) : JS.Obj PaymentCount :=
  let paymentCounts :=
    match JS.get paymentCounts (Transaction.paymentMethod t) with
    | None =>
        JS.set paymentCounts (Transaction.paymentMethod t)
               {| amount := 0; count := 0 |}
    | Some _ => paymentCounts
    end in
  JS.alter
    (fun c => {| amount := amount c + Transaction.finalAmount t;
                 count := count c + 1 |})
    paymentCounts (Transaction.paymentMethod t).

Definition paymentCounts (dayTransactions : list Transaction.t)
  : JS.Obj PaymentCount :=
  fold_left add_payment dayTransactions [].

Definition paymentMethods_of (paymentCounts : JS.Obj PaymentCount)
  : list PaymentMethod.t :=
  JS.sort (fun a b => PaymentMethod.amount b - PaymentMethod.amount a)
    (map (fun '(method, data) =>
            {| PaymentMethod.method := method;
               PaymentMethod.amount := amount data;
               PaymentMethod.count := count data |})
         (JS.entries paymentCounts)).

(** The rows the two per-day queries return. *)
Definition dayTransactions (db : Store.Db) (d : Z) : list Transaction.t :=
  Store.transactions_list db (JS.isoDate d) (JS.isoDate d ++ "T23:59:59").

Definition dayCheckIns (db : Store.Db) (d : Z) : list Store.CheckIn :=
  Store.checkIns_list db (JS.isoDate d) (JS.isoDate d ++ "T23:59:59").

(** One turn of the [for] loop: the report pushed for day [d]. *)
Definition dayReport (db : Store.Db) (d : Z)
  : JS.Completion DailyReport.t :=
  let dateStr := JS.isoDate d in
  let dayTransactions := dayTransactions db d in
  let dayCheckIns := dayCheckIns db d in
  let sales := filter is_sale dayTransactions in
  let refunds := filter is_refund dayTransactions in
  let totalSales := sum_finalAmount sales in
  let totalRefunds := sum_finalAmount refunds in
  itemCounts <- itemCounts sales ;;
  let topItems := topItems_of itemCounts in
  let paymentMethods := paymentMethods_of (paymentCounts dayTransactions) in
  JS.Normal
    {| DailyReport.date := dateStr;
       DailyReport.totalSales := totalSales;
       DailyReport.totalRefunds := totalRefunds;
       DailyReport.netRevenue := totalSales - totalRefunds;
       DailyReport.transactionCount := List.length dayTransactions;
       DailyReport.memberCheckIns := List.length dayCheckIns;
       DailyReport.topItems := topItems;
       DailyReport.paymentMethods := paymentMethods |}.

(** [for (d = startDate; d <= endDate; d.setDate(d.getDate() + 1))],
    with [turns] the number of days [d] for which the test holds. *)
Fixpoint for_days (db : Store.Db) (turns : nat) (d : Z)
         (reports : list DailyReport.t)
  : JS.Completion (list DailyReport.t) :=
  match turns with
  | O => JS.Normal reports
  | S turns' =>
      report <- dayReport db d ;;
      for_days db turns' (d + 1)%Z (reports ++ [report])
  end.

(** The [try] block up to [reports.reverse()]. *)
Definition buildDailyReports (db : Store.Db) (startDate endDate : Z)
  : JS.Completion (list DailyReport.t) :=
  reports <- for_days db (Z.to_nat (endDate - startDate + 1)) startDate [] ;;
  JS.Normal (rev reports).

(** An exception is caught and logged: the state is left as it was. *)
Definition loadDailyReports (db : Store.Db) (st : State) : State :=
  match buildDailyReports db (startDate (dateRange st))
                          (endDate (dateRange st)) with
  | JS.Normal reports => setDailyReports reports st
  | JS.Throw _ => st
  end.

End Daily.

(* ================================================================= *)
(** ** [calculateStats] *)

Module Summary.

(** [(counts[k] || 0)]. *)
Definition or_zero (v : option Q) : Q :=
  match v with
  | Some q => if Qeq_bool q 0 then 0 else q
  | None => 0
  end.

(** [transactions.forEach(t => counts[key(t)] = (counts[key(t)] || 0)
    + Number(t.finalAmount))], written twice in the source, once per
    key. *)
Definition tally (key : Transaction.t -> string)
           (transactions : list Transaction.t) : JS.Obj Q :=
  fold_left
    (fun counts t =>
       JS.set counts (key t)
              (or_zero (JS.get counts (key t)) + Transaction.finalAmount t))
    transactions [].

(** [Object.entries(counts).sort(([,a], [,b]) => b - a)[0]?.[0] || 'None']. *)
Definition top (counts : JS.Obj Q) : string :=
  match JS.sort (fun a b => snd b - snd a) (JS.entries counts) with
  | [] => "None"
  | (k, _) :: _ => if (k =? "")%string then "None" else k
  end.

Definition membershipCounts (transactions : list Transaction.t) : JS.Obj Q :=
  tally Transaction.membershipType transactions.

Definition paymentCounts (transactions : list Transaction.t) : JS.Obj Q :=
  tally Transaction.paymentMethod transactions.

Definition computeStats (transactions : list Transaction.t) : Stats.t :=
  let sales := filter is_sale transactions in
  let refunds := filter is_refund transactions in
  let totalSales := sum_finalAmount sales in
  let totalRefunds := sum_finalAmount refunds in
  let netRevenue := totalSales - totalRefunds in
  let topMembershipType := top (membershipCounts transactions) in
  let topPaymentMethod := top (paymentCounts transactions) in
  {| Stats.totalSales := totalSales;
     Stats.totalRefunds := totalRefunds;
     Stats.netRevenue := netRevenue;
     Stats.totalTransactions := List.length transactions;
     Stats.averageTransaction :=
       if (0 <? List.length transactions)%nat
       then netRevenue / inject_Z (Z.of_nat (List.length transactions))
       else 0;
     Stats.topMembershipType := topMembershipType;
     Stats.topPaymentMethod := topPaymentMethod |}.

Definition calculateStats (st : State) : State :=
  setStats (computeStats (transactions st)) st.

End Summary.

(* ================================================================= *)
(** ** [exportToCSV] *)

Module Csv.

(** A property value of an exported row: a string, or any other value
    with the text [join] writes for it. *)
Inductive Value : Type :=
| Str (s : string)
| Other (text : string).

(** A row: its own properties, as [Object.keys] and [Object.values]
    list them. *)
Definition Row : Type := list (string * Value).

Record Toast : Type := {
  title : string;
  description : string;
  destructive : bool
}.

Record File : Type := { download : string; content : string }.

(** What one call shows and saves. *)
Record Outcome : Type := { file : option File; toast : Toast }.

Definition quote : string := String (ascii_of_nat 34) EmptyString.

(** The value the inner [map] returns, as [join] writes it: a string
    that includes a comma goes between two [quote]s. *)
Definition cell (value : Value) : string :=
  match value with
  | Str s => if JS.includes s ","%char then quote ++ s ++ quote else s
  | Other text => text
  end.

Definition headers_of (data : list Row) : string :=
  match data with
  | [] => ""
  | first :: _ => JS.join "," (map fst first)
  end.

Definition row_text (row : Row) : string :=
  JS.join "," (map (fun kv => cell (snd kv)) row).

Definition rows_of (data : list Row) : list string := map row_text data.

Definition newline : string := String (ascii_of_nat 10) "".

Definition exportToCSV (data : list Row) (filename : string) (st : State)
  : Outcome :=
  match data with
  | [] =>
      {| file := None;
         toast :=
           {| title := "No data to export";
              description :=
                "There is no data available for the selected filters.";
              destructive := true |} |}
  | _ :: _ =>
      let headers := headers_of data in
      let rows := JS.join newline (rows_of data) in
      let csv := headers ++ newline ++ rows in
      {| file :=
           Some {| download :=
                     filename ++ "_" ++ JS.isoDate (startDate (dateRange st))
                     ++ "_to_" ++ JS.isoDate (endDate (dateRange st))
                     ++ ".csv";
                   content := csv |};
         toast :=
           {| title := "Export successful";
              description := filename ++ " has been downloaded as CSV.";
              destructive := false |} |}
  end.

End Csv.

(* ================================================================= *)
(** ** Vocabulary of the specification

    The notions the specification uses to describe the results, defined
    without reference to the code above. *)

Module Spec.

(** The sum of a sequence of amounts. *)
Definition total (l : list Q) : Q := fold_right Qplus 0 l.

(** [l1] is [l2] with some elements left out, order kept. *)
Inductive Subsequence {A : Type} : list A -> list A -> Prop :=
| sub_nil : Subsequence [] []
| sub_keep (x : A) (l1 l2 : list A) :
    Subsequence l1 l2 -> Subsequence (x :: l1) (x :: l2)
| sub_drop (x : A) (l1 l2 : list A) :
    Subsequence l1 l2 -> Subsequence l1 (x :: l2).

(** The filter criterion of section 4.1. *)
Definition keeps (memberType paymentMethod : string) (t : Transaction.t)
  : bool :=
  ((memberType =? "all")%string
   || (Transaction.membershipType t =? memberType)%string)
  && ((paymentMethod =? "all")%string
      || (Transaction.paymentMethod t =? paymentMethod)%string).

(** The distinct names of a sequence, each at its first occurrence. *)
Fixpoint first_seen (names : list string) : list string :=
  match names with
  | [] => []
  | n :: rest =>
      n :: filter (fun m => negb (m =? n)%string) (first_seen rest)
  end.

(** The order in which the host enumerates a dictionary whose keys were
    created in the order [names]. *)
Definition enumeration_order (names : list string) : list string :=
  map fst (JS.entries (map (fun n => (n, tt)) names)).

(** The names of [names] that are array indices, in ascending numeric
    order: they head the enumeration. *)
Definition index_names (names : list string) : list string :=
  map (fun e => fst (snd e))
      (JS.index_props (map (fun n => (n, tt)) names)).

(** Array-index names in ascending numeric order. *)
Definition ascending_indices (names : list string) : Prop :=
  StronglySorted
    (fun a b =>
       match JS.array_index a, JS.array_index b with
       | Some m, Some n => (m <= n)%N
       | _, _ => False
       end)
    names.

(** The days [first], [first + 1], ... ([turns] of them). *)
Fixpoint days_from (first : Z) (turns : nat) : list Z :=
  match turns with
  | O => []
  | S turns' => first :: days_from (first + 1)%Z turns'
  end.

(** The calendar days of the inclusive range. *)
Definition days (startDate endDate : Z) : list Z :=
  days_from startDate (Z.to_nat (endDate - startDate + 1)).

(** A payload [JSON.parse] accepts and that holds a list of lines. *)
Definition parses (x : ItemsText) : bool :=
  match x with
  | Blank | ItemLines _ => true
  | Unparseable _ | NotAnArray _ => false
  end.

Definition lines (x : ItemsText) : list CartItem.t :=
  match x with
  | ItemLines l => l
  | _ => []
  end.

(** Every sale of every day of the range has a payload that parses. *)
Definition sales_parse (db : Store.Db) (startDate endDate : Z) : bool :=
  forallb
    (fun d =>
       forallb (fun t => parses (Transaction.items t))
               (filter is_sale (Daily.dayTransactions db d)))
    (days startDate endDate).

(** The item lines of a day's sales, flattened. *)
Definition item_lines (sales : list Transaction.t) : list CartItem.t :=
  flat_map (fun t => lines (Transaction.items t)) sales.

Definition named (n : string) (l : list CartItem.t) : list CartItem.t :=
  filter (fun i => (CartItem.name i =? n)%string) l.

(** The entry of item [n]: summed quantity and summed
    [price * quantity] over the lines of that name. *)
Definition item_entry (l : list CartItem.t) (n : string) : TopItem.t :=
  {| TopItem.item := n;
     TopItem.quantity :=
       fold_left (fun sum i => sum + CartItem.quantity i) (named n l) 0;
     TopItem.revenue :=
       fold_left (fun sum i => sum + CartItem.price i * CartItem.quantity i)
                 (named n l) 0 |}.

Definition paid_by (m : string) (l : list Transaction.t)
  : list Transaction.t :=
  filter (fun t => (Transaction.paymentMethod t =? m)%string) l.

(** The entry of payment method [m]: summed amount and number of the
    transactions paid that way, sales and refunds alike. *)
Definition payment_entry (l : list Transaction.t) (m : string)
  : PaymentMethod.t :=
  {| PaymentMethod.method := m;
     PaymentMethod.amount := sum_finalAmount (paid_by m l);
     PaymentMethod.count := List.length (paid_by m l) |}.

(** The summed [finalAmount] of the transactions whose key is [k]. *)
Definition key_total (key : Transaction.t -> string)
           (l : list Transaction.t) (k : string) : Q :=
  total (map Transaction.finalAmount
             (filter (fun t => (key t =? k)%string) l)).

(** [order] lists [x] before [y]. *)
Definition before {A : Type} (order : list A) (x y : A) : Prop :=
  exists l1 l2 l3 : list A, order = (l1 ++ x :: l2 ++ y :: l3)%list.

(** Non-increasing by revenue, by amount. *)
Definition by_revenue (a b : TopItem.t) : Prop :=
  TopItem.revenue b <= TopItem.revenue a.
Definition by_amount (a b : PaymentMethod.t) : Prop :=
  PaymentMethod.amount b <= PaymentMethod.amount a.

(** The top items of section 4.1: the names taken in the order
    [order] makes of their first-encountered order, grouped, ranked by
    revenue with ties in that order, five kept. *)
Definition topItems_in (order : list string -> list string)
           (sales : list Transaction.t) : list TopItem.t :=
  let l := item_lines sales in
  firstn 5
    (JS.sort (fun a b => TopItem.revenue b - TopItem.revenue a)
       (map (item_entry l) (order (first_seen (map CartItem.name l))))).

(** The payment methods of section 4.1, ranked by amount. *)
Definition paymentMethods_in (order : list string -> list string)
           (l : list Transaction.t) : list PaymentMethod.t :=
  JS.sort (fun a b => PaymentMethod.amount b - PaymentMethod.amount a)
    (map (payment_entry l)
         (order (first_seen (map Transaction.paymentMethod l)))).

(** [k] is the first key of [order] whose score is the highest. *)
Definition first_maximum (order : list string) (score : string -> Q)
           (k : string) : Prop :=
  exists earlier later : list string,
    order = (earlier ++ k :: later)%list /\
    Forall (fun k' => score k' < score k) earlier /\
    Forall (fun k' => score k' <= score k) later.

(** The report of day [d] when every payload of its sales parses. *)
Definition report_of (db : Store.Db) (d : Z) : DailyReport.t :=
  let dayTransactions := Daily.dayTransactions db d in
  let sales := filter is_sale dayTransactions in
  let refunds := filter is_refund dayTransactions in
  {| DailyReport.date := JS.isoDate d;
     DailyReport.totalSales := sum_finalAmount sales;
     DailyReport.totalRefunds := sum_finalAmount refunds;
     DailyReport.netRevenue := sum_finalAmount sales - sum_finalAmount refunds;
     DailyReport.transactionCount := List.length dayTransactions;
     DailyReport.memberCheckIns := List.length (Daily.dayCheckIns db d);
     DailyReport.topItems := topItems_in enumeration_order sales;
     DailyReport.paymentMethods :=
       paymentMethods_in enumeration_order dayTransactions |}.

(** The report of a day without transactions and check-ins. *)
Definition empty_report (d : Z) : DailyReport.t :=
  {| DailyReport.date := JS.isoDate d;
     DailyReport.totalSales := 0;
     DailyReport.totalRefunds := 0;
     DailyReport.netRevenue := 0;
     DailyReport.transactionCount := 0;
     DailyReport.memberCheckIns := 0;
     DailyReport.topItems := [];
     DailyReport.paymentMethods := [] |}.

End Spec.

(* ================================================================= *)
(** ** The grouping pattern

    Both grouping loops of [loadDailyReports] have one shape: create the
    entry of the key when it is missing, then update it in place. *)

Module Group.

(** The dictionary with the keys [ks], created in that order, and the
    value [g k] under [k]. *)
Definition keyed {V : Type} (g : string -> V) (ks : list string)
  : JS.Obj V :=
  map (fun k => (k, g k)) ks.

Section Step.
Context {X V : Type}.
Variable key : X -> string.
Variable init : V.
Variable upd : X -> V -> V.

Definition step (o : JS.Obj V) (x : X) : JS.Obj V :=
  JS.alter (upd x)
    (match JS.get o (key x) with
     | None => JS.set o (key x) init
     | Some _ => o
     end)
    (key x).

(** The value the elements of key [k] build up, in order. *)
Definition value (xs : list X) (k : string) : V :=
  fold_left (fun v x => upd x v)
            (filter (fun x => (key x =? k)%string) xs) init.

(** One property per key, in first-encountered order. *)
Definition grouped (xs : list X) : JS.Obj V :=
  keyed (value xs) (Spec.first_seen (map key xs)).
End Step.
End Group.

(* ================================================================= *)
(** ** Sample data *)

Module Sample.

(** The state the component starts from, for a given date range. *)
Definition state (startDate endDate : Z) : State :=
  {| transactions := [];
     dailyReports := [];
     stats :=
       {| Stats.totalSales := 0; Stats.totalRefunds := 0;
          Stats.netRevenue := 0; Stats.totalTransactions := 0;
          Stats.averageTransaction := 0;
          Stats.topMembershipType := EmptyString;
          Stats.topPaymentMethod := EmptyString |};
     dateRange := {| startDate := startDate; endDate := endDate |};
     filterMemberType := "all";
     filterPaymentMethod := "all" |}.

Definition tx (id membershipType : string) (items : ItemsText)
           (finalAmount : Q) (paymentMethod transactionDate : string)
           (isRefund : Z) : Transaction.t :=
  {| Transaction.id := id;
     Transaction.memberName := "Guest";
     Transaction.membershipType := membershipType;
     Transaction.items := items;
     Transaction.originalAmount := finalAmount;
     Transaction.discountAmount := 0;
     Transaction.finalAmount := finalAmount;
     Transaction.paymentMethod := paymentMethod;
     Transaction.transactionDate := transactionDate;
     Transaction.cashierName := "Cashier";
     Transaction.isRefund := isRefund;
     Transaction.refundReason := None |}.

Definition line (name : string) (price quantity : Q) : CartItem.t :=
  {| CartItem.name := name; CartItem.price := price;
     CartItem.quantity := quantity |}.

(** 2024-01-01 and 2024-01-02 as day numbers. *)
Definition jan1 : Z := 19723.
Definition jan2 : Z := 19724.

(** Two sales of beer on one day, and a refund the day after. *)
Definition beer_sales : list Transaction.t :=
  [ tx "t1" "VIP" (ItemLines [line "Beer" 8 2]) 16 "cash"
       "2024-01-01T20:00:00.000Z" 0;
    tx "t2" "Regular" (ItemLines [line "Beer" 8 1]) 8 "card"
       "2024-01-01T21:30:00.000Z" 0 ].

Definition beer_db : Store.Db :=
  {| Store.db_transactions :=
       beer_sales
       ++ [ tx "t3" "VIP" (ItemLines [line "Beer" 8 1]) 8 "cash"
               "2024-01-02T19:00:00.000Z" 1 ];
     Store.db_checkIns :=
       [ {| Store.checkInTime := "2024-01-01T19:45:00.000Z" |} ] |}.

(** The same days, the second sale with a payload that is not JSON. *)
Definition broken_db : Store.Db :=
  {| Store.db_transactions :=
       [ tx "t1" "VIP" (ItemLines [line "Beer" 8 2]) 16 "cash"
            "2024-01-01T20:00:00.000Z" 0;
         tx "t2" "Regular" (Unparseable "[{name:") 8 "card"
            "2024-01-02T21:30:00.000Z" 0 ];
     Store.db_checkIns := [] |}.

(** [broken_db] with the bad payload replaced by the empty list. *)
Definition mended_db : Store.Db :=
  {| Store.db_transactions :=
       [ tx "t1" "VIP" (ItemLines [line "Beer" 8 2]) 16 "cash"
            "2024-01-01T20:00:00.000Z" 0;
         tx "t2" "Regular" (ItemLines []) 8 "card"
            "2024-01-02T21:30:00.000Z" 0 ];
     Store.db_checkIns := [] |}.

(** A sale of two items whose names are numbers, at one price. *)
Definition numbered_sales : list Transaction.t :=
  [ tx "t1" "VIP" (ItemLines [line "10" 5 1; line "9" 5 1]) 10 "cash"
       "2024-01-01T20:00:00.000Z" 0 ].

Definition numbered_db : Store.Db :=
  {| Store.db_transactions := numbered_sales; Store.db_checkIns := [] |}.

(** A sale to a customer without a membership type, paid by a method
    without a name. *)
Definition unnamed_sale : list Transaction.t :=
  [ tx "t1" EmptyString Blank 10 EmptyString "2024-01-01T20:00:00.000Z" 0 ].

(** The two transactions of the example of section 8. *)
Definition sale_and_refund : list Transaction.t :=
  [ tx "t1" "VIP" Blank 25 "cash" "2024-01-01T20:00:00.000Z" 0;
    tx "t2" "VIP" Blank 10 "cash" "2024-01-01T21:00:00.000Z" 1 ].

End Sample.

(* ================================================================= *)
(** ** [loadReportsData]

    The three loads are started from the render that holds [st]; each
    reads the date range and the filters and writes its own state
    variable (the members list and the [loading] flag are not part of
    [State]).  [calculateStats] is then called from that same render: the
    [transactions] it reads are those of [st], not the list just
    stored. *)

Definition loadReportsData (db : Store.Db) (st : State) : State :=
  let loaded := Daily.loadDailyReports db (loadTransactions db st) in
  setStats (Summary.computeStats (transactions st)) loaded.

(* ================================================================= *)
(** ** The Dashboard component *)

Module AuthUser.
Record t : Type := {
  id : string;
  email : string;
  name : option string;
  role : option string
}.
End AuthUser.

(** A row of the users table. *)
Module Profile.
Record t : Type := {
  id : string;
  email : string;
  name : string;
  role : option string
}.
End Profile.

Module Dashboard.

(** [s.split(c)[0]]: the text before the first [c]. *)
Fixpoint split_head (c : ascii) (s : string) : string :=
  match s with
  | EmptyString => EmptyString
  | String a s' =>
      if Ascii.eqb a c then EmptyString else String a (split_head c s')
  end.

(** [user.name || user.email.split('@')[0]]. *)
Definition display_name (user : AuthUser.t) : string :=
  match AuthUser.name user with
  | Some n =>
      if (n =? EmptyString)%string
      then split_head "@"%char (AuthUser.email user)
      else n
  | None => split_head "@"%char (AuthUser.email user)
  end.

(** What [initializeUser] leaves: the users table, the profile in state
    and whether the welcome toast was shown. *)
Record Session : Type := {
  users : list Profile.t;
  userProfile : option Profile.t;
  welcomed : bool
}.

(** [blink.db.users.create] adds the row at the end of the table and
    returns it. *)
Definition initializeUser (user : AuthUser.t) (table : list Profile.t)
  : Session :=
  let existingUsers :=
    filter (fun u => (Profile.email u =? AuthUser.email user)%string) table in
  match existingUsers with
  | [] =>
      let newUser :=
        {| Profile.id := AuthUser.id user;
           Profile.email := AuthUser.email user;
           Profile.name := display_name user;
           Profile.role := Some "cashier" |} in
      {| users := table ++ [newUser];
         userProfile := Some newUser;
         welcomed := true |}
  | first :: _ =>
      {| users := table; userProfile := Some first; welcomed := false |}
  end.

Definition roleHierarchy : JS.Obj nat :=
  [("admin", 3%nat); ("manager", 2%nat); ("cashier", 1%nat)].

(** [roleHierarchy[role] || 0], for a role that may be undefined. *)
Definition role_level (role : option string) : nat :=
  match role with
  | Some r =>
      match JS.get roleHierarchy r with
      | Some n => n
      | None => O
      end
  | None => O
  end.

Definition canAccess (userProfile : option Profile.t) (requiredRole : string)
  : bool :=
  let userRoleLevel :=
    role_level (match userProfile with
                | Some p => Profile.role p
                | None => None
                end) in
  let requiredLevel := role_level (Some requiredRole) in
  (requiredLevel <=? userRoleLevel)%nat.

Definition getRoleColor (role : option string) : string :=
  match role with
  | Some r =>
      if (r =? "admin")%string then "bg-red-500"
      else if (r =? "manager")%string then "bg-blue-500"
      else if (r =? "cashier")%string then "bg-green-500"
      else "bg-gray-500"
  | None => "bg-gray-500"
  end.

(** *** The cart *)

Definition addToCart (name : string) (price : Q) (cartItems : list CartItem.t)
  : list CartItem.t :=
  cartItems
  ++ [ {| CartItem.name := name; CartItem.price := price;
          CartItem.quantity := 1 |} ].

(** [cartItems.filter((item, i) => i !== index)], with [i] counted from
    [from]. *)
Fixpoint filter_index (from index : nat) (cartItems : list CartItem.t)
  : list CartItem.t :=
  match cartItems with
  | [] => []
  | item :: rest =>
      if (from =? index)%nat then filter_index (S from) index rest
      else item :: filter_index (S from) index rest
  end.

Definition removeFromCart (index : nat) (cartItems : list CartItem.t)
  : list CartItem.t :=
  filter_index 0 index cartItems.

Definition clearCart (cartItems : list CartItem.t) : list CartItem.t := [].

Definition getCartTotal (cartItems : list CartItem.t) : Q :=
  fold_left (fun sum item => sum + CartItem.price item * CartItem.quantity item)
            cartItems 0.

(** [processPayment] shows its toast and clears the cart; it writes
    nothing to the store. *)
Definition processPayment (cartItems : list CartItem.t) : list CartItem.t :=
  clearCart cartItems.

(** What a cashier can do to the cart, and a session of such actions
    from the empty cart. *)
Inductive CartAction : Type :=
| Add (name : string) (price : Q)
| Remove (index : nat)
| Clear
| Pay.

Definition act (cartItems : list CartItem.t) (a : CartAction)
  : list CartItem.t :=
  match a with
  | Add name price => addToCart name price cartItems
  | Remove index => removeFromCart index cartItems
  | Clear => clearCart cartItems
  | Pay => processPayment cartItems
  end.

Definition run (actions : list CartAction) : list CartItem.t :=
  fold_left act actions [].

(** *** [loadDashboardStats]

    [today] and [monthStart] are the two texts the host clock gives:
    [new Date().toISOString().split('T')[0]] and the ISO text of the
    first day of the month. *)
Record Figures : Type := {
  totalMembers : nat;
  activeMembers : nat;
  todayRevenue : Q;
  monthlyRevenue : Q
}.

(** [{ gte: lo }] on a text column. *)
Definition since (lo v : string) : bool := (lo <=? v)%string.

Definition todayTransactions (db : Store.Db) (today : string)
  : list Transaction.t :=
  filter (fun t => since today (Transaction.transactionDate t))
         (Store.db_transactions db).

Definition loadDashboardStats {Member : Type} (members : list Member)
           (db : Store.Db) (today monthStart : string) : Figures :=
  let checkIns :=
    filter (fun c => since today (Store.checkInTime c)) (Store.db_checkIns db) in
  let todayTransactions := todayTransactions db today in
  let todayRevenue := sum_finalAmount todayTransactions in
  let monthlyTransactions :=
    filter (fun t => since monthStart (Transaction.transactionDate t))
           (Store.db_transactions db) in
  let monthlyRevenue := sum_finalAmount monthlyTransactions in
  {| totalMembers := List.length members;
     activeMembers := List.length checkIns;
     todayRevenue := todayRevenue;
     monthlyRevenue := monthlyRevenue |}.

End Dashboard.

(* ================================================================= *)
(** ** More vocabulary *)

Module Measure.

(** How many times [c] occurs in [s]. *)
Fixpoint occurrences (c : ascii) (s : string) : nat :=
  match s with
  | EmptyString => O
  | String a s' =>
      ((if Ascii.eqb a c then 1 else 0) + occurrences c s')%nat
  end.

(** The text of a value before any quoting. *)
Definition text_of (v : Csv.Value) : string :=
  match v with
  | Csv.Str s => s
  | Csv.Other text => text
  end.

(** The transactions whose flag is neither 0 nor 1. *)
Definition unflagged (l : list Transaction.t) : list Transaction.t :=
  filter (fun t => negb (is_sale t || is_refund t)) l.

(** The revenue of an item line. *)
Definition line_revenue (i : CartItem.t) : Q :=
  CartItem.price i * CartItem.quantity i.

End Measure.

Local Open Scope list_scope.

(* ================================================================= *)
(** ** Sums and sub-sequences *)

Section Sums.
Context {A : Type} (f : A -> Q).

Lemma fold_sum_from (l : list A) (acc : Q) :
  fold_left (fun sum x => sum + f x) l acc == acc + Spec.total (map f l).
Proof.
  revert acc. induction l as [|x l IH]; intros acc; simpl.
  - ring.
  - rewrite IH. ring.
Qed.

Lemma fold_sum_total (l : list A) :
  fold_left (fun sum x => sum + f x) l 0 == Spec.total (map f l).
Proof. rewrite fold_sum_from. ring. Qed.
End Sums.

Lemma sum_finalAmount_total (l : list Transaction.t) :
  sum_finalAmount l == Spec.total (map Transaction.finalAmount l).
Proof. apply fold_sum_total. Qed.

Section Filtering.
Context {A : Type}.

Lemma Subsequence_refl (l : list A) : Spec.Subsequence l l.
Proof. induction l; constructor; assumption. Qed.

Lemma Subsequence_filter (p : A -> bool) (l : list A) :
  Spec.Subsequence (filter p l) l.
Proof.
  induction l as [|x l IH]; simpl.
  - constructor.
  - destruct (p x); constructor; assumption.
Qed.

Lemma Subsequence_In (l1 l2 : list A) :
  Spec.Subsequence l1 l2 -> forall x, In x l1 -> In x l2.
Proof.
  induction 1 as [|x l1 l2 _ IH|x l1 l2 _ IH]; intros y Hy; simpl in *.
  - assumption.
  - destruct Hy as [->|Hy]; [left; reflexivity | right; apply IH, Hy].
  - right. apply IH, Hy.
Qed.

Lemma filter_twice (p q : A -> bool) (l : list A) :
  filter q (filter p l) = filter (fun x => p x && q x) l.
Proof.
  induction l as [|x l IH]; simpl; [reflexivity|].
  destruct (p x); simpl; [destruct (q x)|]; rewrite IH; reflexivity.
Qed.

Lemma filter_all (p : A -> bool) (l : list A) :
  (forall x, In x l -> p x = true) -> filter p l = l.
Proof.
  induction l as [|x l IH]; intros H; simpl; [reflexivity|].
  rewrite (H x (or_introl eq_refl)), IH; [reflexivity|].
  intros y Hy. apply H. right. exact Hy.
Qed.

(** Two tests of which exactly one holds on every element split a list. *)
Lemma filter_split (p q : A -> bool) (l : list A) :
  (forall x, In x l -> p x = negb (q x)) ->
  Permutation (filter p l ++ filter q l) l.
Proof.
  induction l as [|x l IH]; intros H; simpl; [constructor|].
  assert (Hl : Permutation (filter p l ++ filter q l) l).
  { apply IH. intros y Hy. apply H. right. exact Hy. }
  rewrite (H x (or_introl eq_refl)). destruct (q x); simpl.
  - apply Permutation_sym, Permutation_cons_app, Permutation_sym, Hl.
  - constructor. exact Hl.
Qed.
End Filtering.

Lemma is_sale_flag (t : Transaction.t) :
  is_sale t = true <-> Transaction.isRefund t = 0%Z.
Proof. unfold is_sale. apply Z.eqb_eq. Qed.

Lemma is_refund_flag (t : Transaction.t) :
  is_refund t = true <-> Transaction.isRefund t = 1%Z.
Proof. unfold is_refund. apply Z.eqb_eq. Qed.

(** C1. [calculateStats] splits the transactions by the [isRefund] flag
    into sales (flag 0) and refunds (flag 1), the two in input order and
    without a common element, and together all of them when every flag is
    0 or 1; [totalSales] is the sum of [finalAmount] over the sales,
    [totalRefunds] the sum over the refunds, and [netRevenue] is
    [totalSales - totalRefunds]. *)
Theorem summarize_totals (st : State) :
  let s := stats (Summary.calculateStats st) in
  let sales := filter is_sale (transactions st) in
  let refunds := filter is_refund (transactions st) in
  (forall t, In t sales <->
             In t (transactions st) /\ Transaction.isRefund t = 0%Z) /\
  (forall t, In t refunds <->
             In t (transactions st) /\ Transaction.isRefund t = 1%Z) /\
  Spec.Subsequence sales (transactions st) /\
  Spec.Subsequence refunds (transactions st) /\
  (forall t, ~ (In t sales /\ In t refunds)) /\
  ((forall t, In t (transactions st) ->
              Transaction.isRefund t = 0%Z \/ Transaction.isRefund t = 1%Z) ->
   Permutation (sales ++ refunds) (transactions st)) /\
  Stats.totalSales s == Spec.total (map Transaction.finalAmount sales) /\
  Stats.totalRefunds s == Spec.total (map Transaction.finalAmount refunds) /\
  Stats.netRevenue s = Stats.totalSales s - Stats.totalRefunds s.
Proof.
  intros s sales refunds. subst s sales refunds.
  split; [|split; [|split; [|split; [|split; [|split; [|split; [|split]]]]]]].
  - intros t. rewrite filter_In, is_sale_flag. reflexivity.
  - intros t. rewrite filter_In, is_refund_flag. reflexivity.
  - apply Subsequence_filter.
  - apply Subsequence_filter.
  - intros t [H1 H2]. apply filter_In in H1, H2.
    destruct H1 as [_ H1], H2 as [_ H2].
    apply is_sale_flag in H1. apply is_refund_flag in H2. lia.
  - intros H. apply filter_split. intros t Ht.
    unfold is_sale, is_refund. destruct (H t Ht) as [E | E]; rewrite E; reflexivity.
  - simpl. apply sum_finalAmount_total.
  - simpl. apply sum_finalAmount_total.
  - reflexivity.
Qed.

(* ================================================================= *)
(** ** The summary figures *)

(** C5. [averageTransaction] is [netRevenue] divided by the number of
    transactions when there is one at least, and 0 when there is none; a
    sale of 25 and a refund of 10 give 25, 10, 15 and 7.5. *)
Theorem averageTransaction_defined :
  (forall st : State,
      transactions st = [] ->
      Stats.averageTransaction (stats (Summary.calculateStats st)) = 0) /\
  (forall st : State,
      transactions st <> [] ->
      let s := stats (Summary.calculateStats st) in
      let n := inject_Z (Z.of_nat (List.length (transactions st))) in
      Stats.averageTransaction s = Stats.netRevenue s / n /\
      Stats.averageTransaction s * n == Stats.netRevenue s) /\
  (forall (st : State) (sale refund : Transaction.t),
      transactions st = [sale; refund] ->
      Transaction.finalAmount sale = 25 ->
      Transaction.isRefund sale = 0%Z ->
      Transaction.finalAmount refund = 10 ->
      Transaction.isRefund refund = 1%Z ->
      let s := stats (Summary.calculateStats st) in
      Stats.totalSales s = 25 /\ Stats.totalRefunds s = 10 /\
      Stats.netRevenue s = 15 /\ Stats.averageTransaction s == 7.5).
Proof.
  split; [|split].
  - intros st H. simpl. rewrite H. reflexivity.
  - intros st H s n. subst s n. simpl.
    destruct (transactions st) as [|t l] eqn:E; [congruence|].
    cbn [List.length Nat.ltb Nat.leb]. split; [reflexivity|].
    field. intros C.
    assert (Hn : (0 < Z.of_nat (S (List.length l)))%Z) by lia.
    unfold Qeq, inject_Z in C. simpl in C. lia.
  - intros st sale refund H Hs1 Hs2 Hr1 Hr2 s. subst s. simpl. rewrite H.
    unfold sum_finalAmount, is_sale, is_refund. simpl.
    rewrite Hs2, Hr2. simpl. rewrite Hs1, Hr1.
    repeat split; reflexivity.
Qed.

(** C10. With no transactions the two top keys are the text [None]. *)
Theorem top_keys_of_nothing (st : State) :
  let s := stats (Summary.calculateStats (setTransactions [] st)) in
  Stats.topMembershipType s = "None" /\ Stats.topPaymentMethod s = "None".
Proof. split; reflexivity. Qed.

(* ================================================================= *)
(** ** Filtering *)

Lemma applyFilters_keeps (memberType paymentMethod : string)
      (all : list Transaction.t) :
  applyFilters memberType paymentMethod all
  = filter (Spec.keeps memberType paymentMethod) all.
Proof.
  unfold applyFilters, Spec.keeps.
  destruct (memberType =? "all")%string, (paymentMethod =? "all")%string;
    simpl.
  - symmetry. apply filter_all. reflexivity.
  - apply filter_ext. intros t. reflexivity.
  - apply filter_ext. intros t. rewrite andb_true_r. reflexivity.
  - apply filter_twice.
Qed.

(** C6. The filtered list is a sub-sequence of the fetched one, a record
    is kept exactly when each filter is [all] or equals the record's
    field, and the filters [all], [all] keep everything. *)
Theorem filter_narrows (db : Store.Db) (st : State) :
  let T := allTransactions db st in
  let R := transactions (loadTransactions db st) in
  let memberType := filterMemberType st in
  let paymentMethod := filterPaymentMethod st in
  R = applyFilters memberType paymentMethod T /\
  Spec.Subsequence R T /\
  (forall t, In t R <->
             In t T /\
             (memberType = "all" \/ Transaction.membershipType t = memberType) /\
             (paymentMethod = "all" \/ Transaction.paymentMethod t = paymentMethod)) /\
  R = filter (Spec.keeps memberType paymentMethod) T /\
  (forall all : list Transaction.t, applyFilters "all" "all" all = all).
Proof.
  intros T R memberType paymentMethod. subst R. simpl.
  fold T memberType paymentMethod.
  rewrite applyFilters_keeps.
  split; [reflexivity|]. split; [apply Subsequence_filter|].
  split; [|split; [reflexivity|]].
  - intros t. rewrite filter_In. unfold Spec.keeps.
    rewrite andb_true_iff, !orb_true_iff, !String.eqb_eq. reflexivity.
  - intros all. reflexivity.
Qed.

(* ================================================================= *)
(** ** Export *)

Lemma includes_In (s : string) (c : ascii) :
  JS.includes s c = true <-> In c (list_ascii_of_string s).
Proof.
  induction s as [|c' s IH]; simpl.
  - split; [discriminate | tauto].
  - destruct (Ascii.eqb_spec c' c) as [->|Hne].
    + split; auto.
    + rewrite IH. split; [auto | intros [H|H]; [congruence | exact H]].
Qed.


(* ================================================================= *)
(** ** The stable sort, for a comparator [b.key - a.key] *)

Section Sort.
Context {A : Type} (key : A -> Q).

Let cmp (a b : A) : Q := key b - key a.
Let desc (a b : A) : Prop := key b <= key a.

Lemma cmp_le (a b : A) : Qle_bool (cmp a b) 0 = true <-> key b <= key a.
Proof. unfold cmp. rewrite Qle_bool_iff. split; intros H; lra. Qed.

Lemma cmp_gt (a b : A) : Qle_bool (cmp a b) 0 = false <-> key a < key b.
Proof.
  rewrite <- not_true_iff_false, cmp_le. split; intros H; lra.
Qed.

Lemma sort_insert_perm (a : A) (l : list A) :
  Permutation (JS.sort_insert cmp a l) (a :: l).
Proof.
  induction l as [|b l IH]; simpl; [apply Permutation_refl|].
  destruct (Qle_bool (cmp a b) 0); [apply Permutation_refl|].
  eapply Permutation_trans; [apply perm_skip, IH | apply perm_swap].
Qed.

Lemma sort_perm (l : list A) : Permutation (JS.sort cmp l) l.
Proof.
  induction l as [|a l IH]; simpl; [constructor|].
  eapply Permutation_trans; [apply sort_insert_perm | apply perm_skip, IH].
Qed.

Lemma sort_insert_sorted (a : A) (l : list A) :
  StronglySorted desc l -> StronglySorted desc (JS.sort_insert cmp a l).
Proof.
  induction 1 as [|b l Hl IH Hb]; simpl.
  - constructor; constructor.
  - destruct (Qle_bool (cmp a b) 0) eqn:E.
    + apply cmp_le in E. constructor; [constructor; assumption|].
      constructor; [exact E|].
      eapply Forall_impl; [|exact Hb]. unfold desc. intros c Hc. lra.
    + apply cmp_gt in E. constructor; [exact IH|].
      eapply Permutation_Forall;
        [apply Permutation_sym, sort_insert_perm|].
      constructor; [unfold desc; lra | exact Hb].
Qed.

Lemma sort_sorted (l : list A) : StronglySorted desc (JS.sort cmp l).
Proof.
  induction l as [|a l IH]; simpl; [constructor|].
  apply sort_insert_sorted, IH.
Qed.

(** Stability: the elements of one key value keep their order. *)
Lemma sort_insert_stable (q : Q) (a : A) (l : list A) :
  filter (fun x => Qeq_bool (key x) q) (JS.sort_insert cmp a l)
  = filter (fun x => Qeq_bool (key x) q) (a :: l).
Proof.
  induction l as [|b l IH]; [reflexivity|].
  cbn [JS.sort_insert].
  destruct (Qle_bool (cmp a b) 0) eqn:E; [reflexivity|].
  apply cmp_gt in E. cbn [filter] in *. rewrite IH.
  destruct (Qeq_bool (key a) q) eqn:Ea; [|reflexivity].
  destruct (Qeq_bool (key b) q) eqn:Eb; [|reflexivity].
  apply Qeq_bool_iff in Ea, Eb. lra.
Qed.

Lemma sort_stable (q : Q) (l : list A) :
  filter (fun x => Qeq_bool (key x) q) (JS.sort cmp l)
  = filter (fun x => Qeq_bool (key x) q) l.
Proof.
  induction l as [|a l IH]; [reflexivity|].
  cbn [JS.sort]. rewrite sort_insert_stable. cbn [filter].
  rewrite IH. reflexivity.
Qed.

Lemma sort_nil (l : list A) : JS.sort cmp l = [] -> l = [].
Proof.
  intros H. apply Permutation_nil. rewrite <- H. apply sort_perm.
Qed.

(** The first element of the result is the first maximum of the input. *)
Lemma sort_head (l : list A) (h : A) (rest : list A) :
  JS.sort cmp l = h :: rest ->
  exists l1 l2,
    l = (l1 ++ h :: l2)%list /\
    Forall (fun x => key x < key h) l1 /\
    Forall (fun x => key x <= key h) l2.
Proof.
  revert h rest. induction l as [|a l IH]; intros h rest H; [discriminate|].
  cbn [JS.sort] in H.
  destruct (JS.sort cmp l) as [|b s] eqn:Es.
  - apply sort_nil in Es. subst l.
    simpl in H. injection H as <- <-.
    exists [], []. repeat split; constructor.
  - destruct (IH b s eq_refl) as (l1 & l2 & -> & H1 & H2).
    simpl in H. destruct (Qle_bool (cmp a b) 0) eqn:E.
    + apply cmp_le in E. injection H as <- <-.
      exists [], (l1 ++ b :: l2)%list. split; [reflexivity|].
      split; [constructor|].
      apply Forall_app. split.
      * eapply Forall_impl; [|exact H1]. intros c Hc. simpl in Hc. lra.
      * constructor; [exact E|].
        eapply Forall_impl; [|exact H2]. intros c Hc. simpl in Hc. lra.
    + apply cmp_gt in E. injection H as <- <-.
      exists (a :: l1), l2. split; [reflexivity|].
      split; [constructor; assumption | assumption].
Qed.

End Sort.

Lemma Subsequence_nil {A : Type} (l : list A) : Spec.Subsequence [] l.
Proof. induction l; constructor; assumption. Qed.

Lemma Subsequence_firstn {A : Type} (n : nat) (l : list A) :
  Spec.Subsequence (firstn n l) l.
Proof.
  revert n. induction l as [|a l IH]; intros [|n]; simpl.
  - constructor.
  - constructor.
  - apply Subsequence_nil.
  - constructor. apply IH.
Qed.

Lemma StronglySorted_firstn {A : Type} (R : A -> A -> Prop) (n : nat)
      (l : list A) :
  StronglySorted R l -> StronglySorted R (firstn n l).
Proof.
  revert n. induction l as [|a l IH]; intros [|n] H; simpl;
    try constructor.
  - apply IH. inversion H; assumption.
  - inversion H as [|? ? _ Hall]. subst.
    rewrite Forall_forall in *. intros x Hx. apply Hall.
    eapply Subsequence_In; [apply Subsequence_firstn | exact Hx].
Qed.

(* ================================================================= *)
(** ** First-encountered order *)

Lemma existsb_eqb_In (k : string) (l : list string) :
  existsb (String.eqb k) l = true <-> In k l.
Proof.
  rewrite existsb_exists. split.
  - intros (x & Hx & E). apply String.eqb_eq in E. subst. exact Hx.
  - intros H. exists k. split; [exact H | apply String.eqb_refl].
Qed.

Lemma existsb_eqb_notIn (k : string) (l : list string) :
  existsb (String.eqb k) l = false <-> ~ In k l.
Proof. rewrite <- existsb_eqb_In. symmetry. apply not_true_iff_false. Qed.

Lemma first_seen_In (l : list string) (x : string) :
  In x (Spec.first_seen l) <-> In x l.
Proof.
  induction l as [|n l IH]; simpl; [reflexivity|].
  rewrite filter_In, IH, negb_true_iff.
  destruct (String.eqb_spec x n) as [->|Hne]; intuition congruence.
Qed.

Lemma first_seen_NoDup (l : list string) : NoDup (Spec.first_seen l).
Proof.
  induction l as [|n l IH]; simpl; constructor.
  - rewrite filter_In, String.eqb_refl. intros [_ H]. discriminate.
  - apply NoDup_filter, IH.
Qed.

Lemma first_seen_snoc (l : list string) (n : string) :
  Spec.first_seen (l ++ [n])
  = if existsb (String.eqb n) l then Spec.first_seen l
    else (Spec.first_seen l ++ [n])%list.
Proof.
  induction l as [|a l IH]; simpl; [reflexivity|].
  rewrite IH. destruct (String.eqb_spec n a) as [->|Hne]; simpl.
  - destruct (existsb (String.eqb a) l); [reflexivity|].
    rewrite filter_app. simpl. rewrite String.eqb_refl. simpl.
    rewrite app_nil_r. reflexivity.
  - destruct (existsb (String.eqb n) l); [reflexivity|].
    rewrite filter_app. simpl.
    apply String.eqb_neq in Hne. rewrite Hne. reflexivity.
Qed.

(* ================================================================= *)
(** ** Dictionaries with one property per key *)

Section Keyed.
Context {V : Type}.

Local Abbreviation keyed := (@Group.keyed V).

Lemma get_keyed (g : string -> V) (ks : list string) (k : string) :
  JS.get (keyed g ks) k
  = if existsb (String.eqb k) ks then Some (g k) else None.
Proof.
  induction ks as [|a ks IH]; simpl; [reflexivity|].
  rewrite (String.eqb_sym k a).
  destruct (String.eqb_spec a k) as [->|_]; simpl; [reflexivity | exact IH].
Qed.

Lemma set_keyed_new (g : string -> V) (ks : list string) (k : string)
      (v : V) :
  existsb (String.eqb k) ks = false ->
  JS.set (keyed g ks) k v
  = keyed (fun n => if (n =? k)%string then v else g n) (ks ++ [k]).
Proof.
  induction ks as [|a ks IH]; simpl; intros H.
  - rewrite String.eqb_refl. reflexivity.
  - apply orb_false_iff in H. destruct H as [Ha H].
    rewrite String.eqb_sym in Ha. rewrite Ha, IH by exact H. reflexivity.
Qed.

Lemma alter_keyed (f : V -> V) (g : string -> V) (ks : list string)
      (k : string) :
  NoDup ks ->
  JS.alter f (keyed g ks) k
  = keyed (fun n => if (n =? k)%string then f (g n) else g n) ks.
Proof.
  induction 1 as [|a ks Ha _ IH]; simpl; [reflexivity|].
  destruct (String.eqb_spec a k) as [->|Hne].
  - f_equal. apply map_ext_in. intros n Hn.
    destruct (String.eqb_spec n k) as [->|_]; [contradiction | reflexivity].
  - rewrite IH. reflexivity.
Qed.
End Keyed.

(* ================================================================= *)
(** ** The grouping loops build one property per key *)

Section Grouping.
Context {X V : Type}.
Variable key : X -> string.
Variable init : V.
Variable upd : X -> V -> V.

Local Abbreviation value := (Group.value key init upd).
Local Abbreviation grouped := (Group.grouped key init upd).
Local Abbreviation step := (Group.step key init upd).

Lemma value_snoc (xs : list X) (x : X) (k : string) :
  value (xs ++ [x]) k
  = if (key x =? k)%string then upd x (value xs k) else value xs k.
Proof.
  unfold Group.value. rewrite filter_app. simpl.
  destruct (key x =? k)%string.
  - rewrite fold_left_app. reflexivity.
  - rewrite app_nil_r. reflexivity.
Qed.

Lemma value_absent (xs : list X) (k : string) :
  ~ In k (map key xs) -> value xs k = init.
Proof.
  intros H. unfold Group.value.
  replace (filter (fun x => (key x =? k)%string) xs) with (@nil X);
    [reflexivity|].
  symmetry. induction xs as [|x xs IH]; simpl; [reflexivity|].
  destruct (String.eqb_spec (key x) k) as [E|_].
  - exfalso. apply H. left. exact E.
  - apply IH. intros Hin. apply H. right. exact Hin.
Qed.

Lemma step_grouped (xs : list X) (x : X) :
  step (grouped xs) x = grouped (xs ++ [x]).
Proof.
  unfold Group.step, Group.grouped.
  rewrite get_keyed, map_app. simpl. rewrite first_seen_snoc.
  destruct (existsb (String.eqb (key x)) (Spec.first_seen (map key xs)))
    eqn:E.
  - assert (E' : existsb (String.eqb (key x)) (map key xs) = true).
    { apply existsb_eqb_In, first_seen_In, existsb_eqb_In, E. }
    rewrite E', alter_keyed by apply first_seen_NoDup.
    apply map_ext. intros n. rewrite value_snoc, (String.eqb_sym n).
    reflexivity.
  - assert (Hx : ~ In (key x) (map key xs)).
    { rewrite <- first_seen_In. apply existsb_eqb_notIn, E. }
    assert (E' : existsb (String.eqb (key x)) (map key xs) = false)
      by (apply existsb_eqb_notIn, Hx).
    rewrite E', set_keyed_new by exact E.
    rewrite alter_keyed.
    + apply map_ext. intros n. rewrite value_snoc, (String.eqb_sym n).
      destruct (String.eqb_spec (key x) n) as [<-|_]; [|reflexivity].
      rewrite value_absent by exact Hx. reflexivity.
    + pose proof (first_seen_NoDup (map key xs ++ [key x])) as Hn.
      rewrite first_seen_snoc, E' in Hn. exact Hn.
Qed.

Lemma fold_step_grouped (xs ys : list X) :
  fold_left step ys (grouped xs) = grouped (xs ++ ys).
Proof.
  revert xs. induction ys as [|y ys IH]; intros xs; simpl.
  - rewrite app_nil_r. reflexivity.
  - rewrite step_grouped, IH, <- app_assoc. reflexivity.
Qed.

Lemma fold_step (xs : list X) : fold_left step xs [] = grouped xs.
Proof. apply (fold_step_grouped []). Qed.
End Grouping.

(* ================================================================= *)
(** ** The order of [Object.entries] *)

Section Enumeration.
Context {V : Type}.
Variable g : string -> V.

Let relabel (e : N * (string * unit)) : N * (string * V) :=
  (fst e, (fst (snd e), g (fst (snd e)))).

Lemma insert_index_relabel (n : N) (k : string)
      (l : list (N * (string * unit))) :
  JS.insert_index n (k, g k) (map relabel l)
  = map relabel (JS.insert_index n (k, tt) l).
Proof.
  induction l as [|[m [k' []]] l IH]; simpl; [reflexivity|].
  destruct (n <=? m)%N; simpl; [reflexivity|].
  rewrite IH. reflexivity.
Qed.

Lemma index_props_keyed (ks : list string) :
  JS.index_props (Group.keyed g ks)
  = map relabel (JS.index_props (Group.keyed (fun _ => tt) ks)).
Proof.
  induction ks as [|k ks IH]; simpl; [reflexivity|].
  destruct (JS.array_index k); [|exact IH].
  rewrite IH. apply insert_index_relabel.
Qed.

Lemma named_props_keyed (ks : list string) :
  JS.named_props (Group.keyed g ks)
  = Group.keyed g (filter (fun k => negb (JS.is_array_index k)) ks).
Proof.
  unfold JS.named_props.
  induction ks as [|k ks IH]; simpl; [reflexivity|].
  destruct (JS.is_array_index k); simpl; rewrite IH; reflexivity.
Qed.
End Enumeration.

Lemma enumeration_order_split (ks : list string) :
  Spec.enumeration_order ks
  = (Spec.index_names ks
     ++ filter (fun k => negb (JS.is_array_index k)) ks)%list.
Proof.
  unfold Spec.enumeration_order, Spec.index_names, JS.entries.
  change (map (fun n => (n, tt)) ks) with (Group.keyed (fun _ => tt) ks).
  rewrite map_app, map_map, named_props_keyed.
  f_equal. unfold Group.keyed. rewrite map_map. apply map_id.
Qed.

Lemma entries_keyed {V : Type} (g : string -> V) (ks : list string) :
  JS.entries (Group.keyed g ks) = Group.keyed g (Spec.enumeration_order ks).
Proof.
  rewrite enumeration_order_split. unfold JS.entries.
  rewrite index_props_keyed, named_props_keyed.
  unfold Group.keyed, Spec.index_names.
  rewrite map_app, !map_map. reflexivity.
Qed.

(** Without array-index names the enumeration is the creation order. *)
Lemma index_props_none {V : Type} (o : JS.Obj V) :
  forallb (fun kv => negb (JS.is_array_index (fst kv))) o = true ->
  JS.index_props o = [].
Proof.
  induction o as [|kv o IH]; simpl; [reflexivity|].
  unfold JS.is_array_index. intros H. apply andb_true_iff in H.
  destruct H as [H1 H2]. destruct (JS.array_index (fst kv)); [discriminate|].
  apply IH, H2.
Qed.

Lemma enumeration_order_plain (ks : list string) :
  forallb (fun k => negb (JS.is_array_index k)) ks = true ->
  Spec.enumeration_order ks = ks.
Proof.
  intros H. rewrite enumeration_order_split. unfold Spec.index_names.
  rewrite index_props_none.
  - simpl. apply filter_all. apply forallb_forall, H.
  - unfold Group.keyed. rewrite forallb_forall in *.
    intros kv Hkv. apply in_map_iff in Hkv. destruct Hkv as (k & <- & Hk).
    apply H, Hk.
Qed.

(** The array-index names are enumerated in ascending numeric order, and
    they are the array-index names of the dictionary. *)
Section IndexOrder.
Context {V : Type}.

Let ascending (e1 e2 : N * (string * V)) : Prop := (fst e1 <= fst e2)%N.

Lemma insert_index_perm (n : N) (kv : string * V)
      (l : list (N * (string * V))) :
  Permutation (JS.insert_index n kv l) ((n, kv) :: l).
Proof.
  induction l as [|[m kv'] l IH]; simpl; [apply Permutation_refl|].
  destruct (n <=? m)%N; [apply Permutation_refl|].
  eapply Permutation_trans; [apply perm_skip, IH | apply perm_swap].
Qed.

Lemma insert_index_sorted (n : N) (kv : string * V)
      (l : list (N * (string * V))) :
  StronglySorted ascending l ->
  StronglySorted ascending (JS.insert_index n kv l).
Proof.
  induction 1 as [|[m kv'] l Hl IH Hm]; simpl.
  - constructor; constructor.
  - destruct (N.leb_spec n m) as [Hle|Hgt].
    + constructor; [constructor; assumption|].
      constructor; [exact Hle|].
      eapply Forall_impl; [|exact Hm].
      unfold ascending. simpl. intros e He. lia.
    + constructor; [exact IH|].
      eapply Permutation_Forall;
        [apply Permutation_sym, insert_index_perm|].
      constructor; [unfold ascending; simpl; lia | exact Hm].
Qed.

Lemma index_props_sorted (o : JS.Obj V) :
  StronglySorted ascending (JS.index_props o).
Proof.
  induction o as [|kv o IH]; simpl; [constructor|].
  destruct (JS.array_index (fst kv)); [|exact IH].
  apply insert_index_sorted, IH.
Qed.

Lemma index_props_index (o : JS.Obj V) :
  Forall (fun e => JS.array_index (fst (snd e)) = Some (fst e))
         (JS.index_props o).
Proof.
  induction o as [|kv o IH]; simpl; [constructor|].
  destruct (JS.array_index (fst kv)) eqn:E; [|exact IH].
  eapply Permutation_Forall; [apply Permutation_sym, insert_index_perm|].
  constructor; [exact E | exact IH].
Qed.

Lemma index_props_perm (o : JS.Obj V) :
  Permutation (map snd (JS.index_props o))
              (filter (fun kv => JS.is_array_index (fst kv)) o).
Proof.
  induction o as [|kv o IH]; simpl; [constructor|].
  unfold JS.is_array_index at 1.
  destruct (JS.array_index (fst kv)); [|exact IH].
  eapply Permutation_trans;
    [apply Permutation_map, insert_index_perm|].
  simpl. constructor. exact IH.
Qed.
End IndexOrder.

(** The head of the enumeration: the array-index names, ascending. *)
Lemma index_names_layout (ks : list string) :
  Permutation (Spec.index_names ks) (filter JS.is_array_index ks) /\
  Spec.ascending_indices (Spec.index_names ks).
Proof.
  unfold Spec.index_names, Spec.ascending_indices. split.
  - rewrite <- (map_map snd fst).
    eapply Permutation_trans; [apply Permutation_map, index_props_perm|].
    induction ks as [|k ks IH]; simpl; [constructor|].
    destruct (JS.is_array_index k); simpl; [constructor|]; exact IH.
  - pose proof (index_props_sorted (map (fun n => (n, tt)) ks)) as Hs.
    pose proof (index_props_index (map (fun n => (n, tt)) ks)) as Hi.
    induction Hs as [|a l Hs IH Ha]; simpl; constructor.
    + apply IH. inversion Hi; assumption.
    + inversion Hi as [|? ? Hia Hil]. subst.
      rewrite Forall_map, Forall_forall in *. intros b Hb.
      rewrite Hia, (Hil b Hb). apply Ha, Hb.
Qed.

Lemma enumeration_order_perm (ks : list string) :
  Permutation (Spec.enumeration_order ks) ks.
Proof.
  unfold Spec.enumeration_order, JS.entries.
  rewrite map_app.
  eapply Permutation_trans.
  - apply Permutation_app;
      [apply Permutation_map, index_props_perm | apply Permutation_refl].
  - rewrite <- map_app. unfold JS.named_props.
    eapply Permutation_trans.
    + apply Permutation_map.
      apply (filter_split (fun kv => JS.is_array_index (fst kv))
                          (fun kv => negb (JS.is_array_index (fst kv)))).
      intros x _. rewrite negb_involutive. reflexivity.
    + rewrite map_map. simpl. rewrite map_id. apply Permutation_refl.
Qed.

Lemma enumeration_order_In (ks : list string) (k : string) :
  In k (Spec.enumeration_order ks) <-> In k ks.
Proof.
  split; apply Permutation_in;
    [|apply Permutation_sym]; apply enumeration_order_perm.
Qed.

Lemma enumeration_order_NoDup (ks : list string) :
  NoDup ks -> NoDup (Spec.enumeration_order ks).
Proof.
  apply Permutation_NoDup, Permutation_sym, enumeration_order_perm.
Qed.

(* ================================================================= *)
(** ** The report of one day *)

Lemma add_item_step :
  Daily.add_item
  = Group.step CartItem.name
      {| Daily.quantity := 0; Daily.revenue := 0 |}
      (fun item c =>
         {| Daily.quantity := Daily.quantity c + CartItem.quantity item;
            Daily.revenue :=
              Daily.revenue c + CartItem.price item * CartItem.quantity item |}).
Proof. reflexivity. Qed.

Lemma add_payment_step :
  Daily.add_payment
  = Group.step Transaction.paymentMethod
      {| Daily.amount := 0; Daily.count := 0 |}
      (fun t c =>
         {| Daily.amount := Daily.amount c + Transaction.finalAmount t;
            Daily.count := Daily.count c + 1 |}).
Proof. reflexivity. Qed.

Lemma item_value_fold (l : list CartItem.t) (q r : Q) :
  fold_left
    (fun c item =>
       {| Daily.quantity := Daily.quantity c + CartItem.quantity item;
          Daily.revenue :=
            Daily.revenue c + CartItem.price item * CartItem.quantity item |})
    l {| Daily.quantity := q; Daily.revenue := r |}
  = {| Daily.quantity :=
         fold_left (fun sum i => sum + CartItem.quantity i) l q;
       Daily.revenue :=
         fold_left (fun sum i => sum + CartItem.price i * CartItem.quantity i)
                   l r |}.
Proof.
  revert q r. induction l as [|i l IH]; intros q r; simpl; [reflexivity|].
  apply IH.
Qed.

Lemma payment_value_fold (l : list Transaction.t) (a : Q) (n : nat) :
  fold_left
    (fun c t =>
       {| Daily.amount := Daily.amount c + Transaction.finalAmount t;
          Daily.count := Daily.count c + 1 |})
    l {| Daily.amount := a; Daily.count := n |}
  = {| Daily.amount :=
         fold_left (fun sum t => sum + Transaction.finalAmount t) l a;
       Daily.count := n + List.length l |}.
Proof.
  revert a n. induction l as [|t l IH]; intros a n; simpl.
  - rewrite Nat.add_0_r. reflexivity.
  - rewrite IH. f_equal. lia.
Qed.

Lemma topItems_of_lines (l : list CartItem.t) :
  Daily.topItems_of (fold_left Daily.add_item l [])
  = firstn 5
      (JS.sort (fun a b => TopItem.revenue b - TopItem.revenue a)
         (map (Spec.item_entry l)
              (Spec.enumeration_order (Spec.first_seen (map CartItem.name l))))).
Proof.
  unfold Daily.topItems_of, JS.slice0.
  rewrite add_item_step, fold_step. unfold Group.grouped.
  rewrite entries_keyed. unfold Group.keyed. rewrite map_map.
  do 2 f_equal. apply map_ext. intros n.
  unfold Group.value, Spec.item_entry, Spec.named.
  rewrite item_value_fold. reflexivity.
Qed.

Lemma paymentMethods_of_day (l : list Transaction.t) :
  Daily.paymentMethods_of (Daily.paymentCounts l)
  = Spec.paymentMethods_in Spec.enumeration_order l.
Proof.
  unfold Daily.paymentMethods_of, Daily.paymentCounts,
    Spec.paymentMethods_in.
  rewrite add_payment_step, fold_step. unfold Group.grouped.
  rewrite entries_keyed. unfold Group.keyed. rewrite map_map.
  f_equal. apply map_ext. intros m.
  unfold Group.value, Spec.payment_entry, Spec.paid_by.
  rewrite payment_value_fold. reflexivity.
Qed.

(** The walk over the sales completes exactly when every payload parses. *)
Lemma itemCounts_from_parses (sales : list Transaction.t)
      (o : JS.Obj Daily.ItemCount) :
  forallb (fun t => Spec.parses (Transaction.items t)) sales = true ->
  Daily.itemCounts_from o sales
  = JS.Normal (fold_left Daily.add_item (Spec.item_lines sales) o).
Proof.
  revert o. induction sales as [|t sales IH]; intros o H; simpl in *.
  - reflexivity.
  - apply andb_true_iff in H. destruct H as [Ht H].
    unfold Spec.item_lines. simpl. rewrite fold_left_app.
    destruct (Transaction.items t); simpl in *; try discriminate;
      apply IH, H.
Qed.

Lemma itemCounts_from_throws (sales : list Transaction.t)
      (o : JS.Obj Daily.ItemCount) :
  forallb (fun t => Spec.parses (Transaction.items t)) sales = false ->
  exists e, Daily.itemCounts_from o sales = JS.Throw e.
Proof.
  revert o. induction sales as [|t sales IH]; intros o H; simpl in *.
  - discriminate.
  - destruct (Transaction.items t); simpl in *;
      try (apply IH, H); eexists; reflexivity.
Qed.

Lemma dayReport_parses (db : Store.Db) (d : Z) :
  forallb (fun t => Spec.parses (Transaction.items t))
          (filter is_sale (Daily.dayTransactions db d)) = true ->
  Daily.dayReport db d = JS.Normal (Spec.report_of db d).
Proof.
  intros H. unfold Daily.dayReport, Daily.itemCounts.
  rewrite itemCounts_from_parses by exact H. simpl.
  rewrite topItems_of_lines, paymentMethods_of_day. reflexivity.
Qed.

Lemma dayReport_throws (db : Store.Db) (d : Z) :
  forallb (fun t => Spec.parses (Transaction.items t))
          (filter is_sale (Daily.dayTransactions db d)) = false ->
  exists e, Daily.dayReport db d = JS.Throw e.
Proof.
  intros H. unfold Daily.dayReport, Daily.itemCounts.
  destruct (itemCounts_from_throws _ [] H) as [e ->].
  exists e. reflexivity.
Qed.

(* ================================================================= *)
(** ** The loop over the days *)

Lemma for_days_parses (db : Store.Db) (turns : nat) (d : Z)
      (reports : list DailyReport.t) :
  forallb
    (fun d =>
       forallb (fun t => Spec.parses (Transaction.items t))
               (filter is_sale (Daily.dayTransactions db d)))
    (Spec.days_from d turns) = true ->
  Daily.for_days db turns d reports
  = JS.Normal (reports ++ map (Spec.report_of db) (Spec.days_from d turns)).
Proof.
  revert d reports. induction turns as [|n IH]; intros d reports H; simpl in *.
  - rewrite app_nil_r. reflexivity.
  - apply andb_true_iff in H. destruct H as [Hd H].
    rewrite dayReport_parses by exact Hd. simpl.
    rewrite IH by exact H. rewrite <- app_assoc. reflexivity.
Qed.

Lemma for_days_throws (db : Store.Db) (turns : nat) (d : Z)
      (reports : list DailyReport.t) :
  forallb
    (fun d =>
       forallb (fun t => Spec.parses (Transaction.items t))
               (filter is_sale (Daily.dayTransactions db d)))
    (Spec.days_from d turns) = false ->
  exists e, Daily.for_days db turns d reports = JS.Throw e.
Proof.
  revert d reports. induction turns as [|n IH]; intros d reports H; simpl in *.
  - discriminate.
  - apply andb_false_iff in H.
    destruct (forallb (fun t => Spec.parses (Transaction.items t))
                      (filter is_sale (Daily.dayTransactions db d))) eqn:Hd.
    + destruct H as [H|H]; [discriminate|].
      rewrite dayReport_parses by exact Hd. simpl. apply IH, H.
    + destruct (dayReport_throws db d Hd) as [e ->]. exists e. reflexivity.
Qed.

Lemma buildDailyReports_parses (db : Store.Db) (s e : Z) :
  Spec.sales_parse db s e = true ->
  Daily.buildDailyReports db s e
  = JS.Normal (rev (map (Spec.report_of db) (Spec.days s e))).
Proof.
  intros H. unfold Daily.buildDailyReports.
  rewrite for_days_parses by exact H. reflexivity.
Qed.

Lemma buildDailyReports_throws (db : Store.Db) (s e : Z) :
  Spec.sales_parse db s e = false ->
  exists exn, Daily.buildDailyReports db s e = JS.Throw exn.
Proof.
  intros H. unfold Daily.buildDailyReports.
  destruct (for_days_throws db _ s [] H) as [exn ->].
  exists exn. reflexivity.
Qed.

Lemma buildDailyReports_Normal (db : Store.Db) (s e : Z)
      (reports : list DailyReport.t) :
  Daily.buildDailyReports db s e = JS.Normal reports ->
  reports = rev (map (Spec.report_of db) (Spec.days s e)).
Proof.
  intros H. destruct (Spec.sales_parse db s e) eqn:E.
  - rewrite buildDailyReports_parses in H by exact E. congruence.
  - destruct (buildDailyReports_throws db s e E) as [exn Hx]. congruence.
Qed.

Lemma days_from_In (first : Z) (turns : nat) (d : Z) :
  In d (Spec.days_from first turns)
  <-> (first <= d < first + Z.of_nat turns)%Z.
Proof.
  revert first. induction turns as [|n IH]; intros first; simpl.
  - lia.
  - rewrite IH. lia.
Qed.

Lemma days_In (s e d : Z) : In d (Spec.days s e) <-> (s <= d <= e)%Z.
Proof. unfold Spec.days. rewrite days_from_In. lia. Qed.

Lemma days_from_length (first : Z) (turns : nat) :
  List.length (Spec.days_from first turns) = turns.
Proof.
  revert first. induction turns as [|n IH]; intros first; simpl;
    [reflexivity | rewrite IH; reflexivity].
Qed.

Lemma days_from_nth (first : Z) (turns i : nat) :
  (i < turns)%nat ->
  nth_error (Spec.days_from first turns) i = Some (first + Z.of_nat i)%Z.
Proof.
  revert first i. induction turns as [|n IH]; intros first [|i] H; simpl;
    try lia.
  - f_equal. lia.
  - rewrite IH by lia. f_equal. lia.
Qed.

Lemma days_rev_nth {A : Type} (f : Z -> A) (s e d : Z) :
  (s <= d <= e)%Z ->
  nth_error (rev (map f (Spec.days s e))) (Z.to_nat (e - d)) = Some (f d).
Proof.
  intros H. rewrite nth_error_rev, length_map. unfold Spec.days.
  rewrite days_from_length.
  destruct (Nat.ltb_spec (Z.to_nat (e - d)) (Z.to_nat (e - s + 1))) as [_|C];
    [|lia].
  rewrite nth_error_map, days_from_nth by lia.
  simpl. f_equal. f_equal. lia.
Qed.

Lemma sales_parse_false (db : Store.Db) (s e : Z) :
  Spec.sales_parse db s e = false <->
  exists d t,
    (s <= d <= e)%Z /\ In t (Daily.dayTransactions db d) /\
    is_sale t = true /\ Spec.parses (Transaction.items t) = false.
Proof.
  unfold Spec.sales_parse. split.
  - intros H.
    destruct (forallb_forall
                (fun d => forallb (fun t => Spec.parses (Transaction.items t))
                                  (filter is_sale (Daily.dayTransactions db d)))
                (Spec.days s e)) as [_ Hall].
    assert (Hex : exists d, In d (Spec.days s e) /\
                            forallb (fun t => Spec.parses (Transaction.items t))
                                    (filter is_sale (Daily.dayTransactions db d))
                            = false).
    { clear Hall. induction (Spec.days s e) as [|d l IH]; simpl in H;
        [discriminate|].
      apply andb_false_iff in H. destruct H as [H|H].
      - exists d. split; [left; reflexivity | exact H].
      - destruct (IH H) as (d' & Hd' & Hf). exists d'. split;
          [right; exact Hd' | exact Hf]. }
    destruct Hex as (d & Hd & Hf). apply days_In in Hd.
    assert (Hex : exists t, In t (filter is_sale (Daily.dayTransactions db d))
                            /\ Spec.parses (Transaction.items t) = false).
    { clear Hall. induction (filter is_sale (Daily.dayTransactions db d))
        as [|t l IH]; simpl in Hf; [discriminate|].
      apply andb_false_iff in Hf. destruct Hf as [Hf|Hf].
      - exists t. split; [left; reflexivity | exact Hf].
      - destruct (IH Hf) as (t' & Ht' & Hp). exists t'. split;
          [right; exact Ht' | exact Hp]. }
    destruct Hex as (t & Ht & Hp). apply filter_In in Ht.
    exists d, t. tauto.
  - intros (d & t & Hd & Ht & Hs & Hp).
    apply not_true_iff_false. intros C.
    rewrite forallb_forall in C. apply days_In in Hd.
    specialize (C d Hd). rewrite forallb_forall in C.
    rewrite C in Hp; [discriminate|]. apply filter_In. tauto.
Qed.



(* ================================================================= *)
(** ** Payloads that do not parse *)

Lemma itemCounts_from_blank (pre post : list Transaction.t)
      (t t' : Transaction.t) (o : JS.Obj Daily.ItemCount) :
  Transaction.items t = Blank ->
  Transaction.items t' = ItemLines [] ->
  Daily.itemCounts_from o (pre ++ t :: post)
  = Daily.itemCounts_from o (pre ++ t' :: post).
Proof.
  intros Ht Ht'. revert o. induction pre as [|u pre IH]; intros o; simpl.
  - rewrite Ht, Ht'. reflexivity.
  - destruct (Daily.parse_items (Transaction.items u)); simpl;
      [apply IH | reflexivity].
Qed.




(* ================================================================= *)
(** ** Counting by key *)

Lemma list_sum_perm (l1 l2 : list nat) :
  Permutation l1 l2 -> list_sum l1 = list_sum l2.
Proof. induction 1; simpl; lia. Qed.

Section Partition.
Context {X : Type}.
Variable key : X -> string.

Let having (k : string) (l : list X) : list X :=
  filter (fun x => (key x =? k)%string) l.

Lemma having_absent (k : string) (l : list X) :
  ~ In k (map key l) -> having k l = [].
Proof.
  induction l as [|x l IH]; simpl; intros H; [reflexivity|].
  destruct (String.eqb_spec (key x) k) as [E|_].
  - exfalso. apply H. left. exact E.
  - apply IH. intros Hin. apply H. right. exact Hin.
Qed.

Lemma sum_without (h : string -> nat) (k0 : string) (ks : list string) :
  NoDup ks ->
  list_sum (map h ks)
  = ((if existsb (String.eqb k0) ks then h k0 else 0)
     + list_sum (map h (filter (fun m => negb (m =? k0)%string) ks)))%nat.
Proof.
  induction 1 as [|k ks Hk _ IH]; simpl; [reflexivity|].
  rewrite IH. rewrite (String.eqb_sym k0 k).
  destruct (String.eqb_spec k k0) as [->|Hne]; simpl.
  - apply existsb_eqb_notIn in Hk. rewrite Hk. lia.
  - lia.
Qed.

Lemma count_partition (l : list X) :
  list_sum (map (fun k => List.length (having k l))
                (Spec.first_seen (map key l)))
  = List.length l.
Proof.
  induction l as [|x l IH]; simpl; [reflexivity|].
  rewrite String.eqb_refl. simpl. f_equal.
  rewrite <- IH at 1.
  rewrite (sum_without (fun k => List.length (having k l)) (key x))
    by apply first_seen_NoDup.
  f_equal.
  - destruct (existsb (String.eqb (key x)) (Spec.first_seen (map key l)))
      eqn:E; [reflexivity|].
    rewrite having_absent; [reflexivity|].
    rewrite <- first_seen_In. apply existsb_eqb_notIn, E.
  - f_equal. apply map_ext_in. intros k Hk. apply filter_In in Hk.
    destruct Hk as [_ Hk]. apply negb_true_iff in Hk.
    rewrite String.eqb_sym in Hk. rewrite Hk. reflexivity.
Qed.
End Partition.

(* ================================================================= *)
(** ** The payment methods of a day *)

Lemma paymentMethods_entries (l : list Transaction.t) :
  Permutation
    (Spec.paymentMethods_in Spec.enumeration_order l)
    (map (Spec.payment_entry l)
         (Spec.first_seen (map Transaction.paymentMethod l))).
Proof.
  unfold Spec.paymentMethods_in.
  eapply Permutation_trans; [apply (sort_perm PaymentMethod.amount)|].
  apply Permutation_map, enumeration_order_perm.
Qed.

Lemma report_of_In (db : Store.Db) (s e : Z) (reports : list DailyReport.t)
      (r : DailyReport.t) :
  Daily.buildDailyReports db s e = JS.Normal reports ->
  In r reports ->
  exists d, (s <= d <= e)%Z /\ r = Spec.report_of db d.
Proof.
  intros Hb Hr. apply buildDailyReports_Normal in Hb. subst reports.
  apply in_rev, in_map_iff in Hr. destruct Hr as (d & <- & Hd).
  exists d. split; [apply days_In, Hd | reflexivity].
Qed.



(* ================================================================= *)
(** ** Relative order *)

Section Before.
Context {A : Type}.

Lemma before_cons (x a b : A) (l : list A) :
  Spec.before l a b -> Spec.before (x :: l) a b.
Proof.
  intros (l1 & l2 & l3 & ->). exists (x :: l1), l2, l3. reflexivity.
Qed.

Lemma before_head (a b : A) (l : list A) :
  In b l -> Spec.before (a :: l) a b.
Proof.
  intros H. apply in_split in H. destruct H as (l2 & l3 & ->).
  exists [], l2, l3. reflexivity.
Qed.

Lemma before_inv (x a b : A) (l : list A) :
  Spec.before (x :: l) a b -> (x = a /\ In b l) \/ Spec.before l a b.
Proof.
  intros ([|y l1] & l2 & l3 & H); simpl in H; injection H as -> ->.
  - left. split; [reflexivity|]. apply in_or_app. right. left. reflexivity.
  - right. exists l1, l2, l3. reflexivity.
Qed.

Lemma before_Subsequence (l1 l2 : list A) (a b : A) :
  Spec.Subsequence l1 l2 -> Spec.before l1 a b -> Spec.before l2 a b.
Proof.
  induction 1 as [|x l1 l2 Hs IH|x l1 l2 Hs IH]; intros H.
  - destruct H as ([|? ?] & ? & ? & H); discriminate.
  - apply before_inv in H. destruct H as [[-> Hb]|H].
    + apply before_head. eapply Subsequence_In; eassumption.
    + apply before_cons, IH, H.
  - apply before_cons, IH, H.
Qed.

Lemma before_filter (p : A -> bool) (l : list A) (a b : A) :
  Spec.before l a b -> p a = true -> p b = true ->
  Spec.before (filter p l) a b.
Proof.
  intros (l1 & l2 & l3 & ->) Ha Hb.
  exists (filter p l1), (filter p l2), (filter p l3).
  rewrite filter_app. simpl. rewrite Ha, filter_app. simpl. rewrite Hb.
  reflexivity.
Qed.

Lemma before_map_inv {B : Type} (f : B -> A) (l : list B) (a b : A) :
  Spec.before (map f l) a b ->
  exists x y, a = f x /\ b = f y /\ Spec.before l x y.
Proof.
  intros (l1 & l2 & l3 & H).
  apply map_eq_app in H. destruct H as (m1 & m' & -> & <- & H).
  destruct m' as [|x m']; [discriminate|]. simpl in H.
  injection H as <- H.
  apply map_eq_app in H. destruct H as (m2 & m'' & -> & <- & H).
  destruct m'' as [|y m3]; [discriminate|]. simpl in H.
  injection H as <- <-.
  exists x, y. split; [reflexivity|]. split; [reflexivity|].
  exists m1, m2, m3. reflexivity.
Qed.
End Before.

(* ================================================================= *)
(** ** The top items of a day *)

Lemma topItems_entries (order : list string -> list string)
      (sales : list Transaction.t) :
  Spec.Subsequence
    (Spec.topItems_in order sales)
    (JS.sort (fun a b => TopItem.revenue b - TopItem.revenue a)
       (map (Spec.item_entry (Spec.item_lines sales))
            (order (Spec.first_seen
                      (map CartItem.name (Spec.item_lines sales)))))).
Proof. apply Subsequence_firstn. Qed.

Lemma topItems_ties (order : list string -> list string)
      (sales : list Transaction.t) (a b : TopItem.t) :
  Spec.before (Spec.topItems_in order sales) a b ->
  TopItem.revenue a == TopItem.revenue b ->
  Spec.before
    (order (Spec.first_seen (map CartItem.name (Spec.item_lines sales))))
    (TopItem.item a) (TopItem.item b).
Proof.
  intros Hab Heq.
  apply (before_Subsequence _ _ _ _ (topItems_entries order sales)) in Hab.
  apply (before_filter
           (fun x => Qeq_bool (TopItem.revenue x) (TopItem.revenue a))) in Hab.
  - rewrite (sort_stable TopItem.revenue) in Hab.
    apply (before_Subsequence _ _ _ _ (Subsequence_filter _ _)) in Hab.
    apply before_map_inv in Hab. destruct Hab as (x & y & -> & -> & H).
    exact H.
  - apply Qeq_bool_iff. reflexivity.
  - apply Qeq_bool_iff. symmetry. exact Heq.
Qed.




(* ================================================================= *)
(** ** The tallies of [calculateStats] *)

Lemma set_keyed_old {V : Type} (g : string -> V) (ks : list string)
      (k : string) (v : V) :
  existsb (String.eqb k) ks = true ->
  NoDup ks ->
  JS.set (Group.keyed g ks) k v
  = Group.keyed (fun n => if (n =? k)%string then v else g n) ks.
Proof.
  intros Hin Hnd. revert Hin.
  induction Hnd as [|a ks Ha _ IH]; simpl; intros Hin; [discriminate|].
  rewrite (String.eqb_sym k a) in Hin.
  destruct (String.eqb_spec a k) as [->|Hne]; simpl in *.
  - f_equal. apply map_ext_in. intros n Hn.
    destruct (String.eqb_spec n k) as [->|_]; [contradiction | reflexivity].
  - rewrite IH by exact Hin. reflexivity.
Qed.

Lemma or_zero_value (q : Q) : Summary.or_zero (Some q) == q.
Proof.
  simpl. destruct (Qeq_bool q 0) eqn:E; [|reflexivity].
  apply Qeq_bool_iff in E. symmetry. exact E.
Qed.

Section Tally.
Variable key : Transaction.t -> string.

Lemma key_total_snoc (ts : list Transaction.t) (t : Transaction.t)
      (k : string) :
  Spec.key_total key (ts ++ [t]) k
  == Spec.key_total key ts k
     + (if (key t =? k)%string then Transaction.finalAmount t else 0).
Proof.
  unfold Spec.key_total. rewrite filter_app, map_app. simpl.
  generalize (map Transaction.finalAmount
                  (filter (fun u => (key u =? k)%string) ts)).
  intros l. destruct (key t =? k)%string; simpl;
    induction l as [|q l IH]; simpl; try rewrite IH; ring.
Qed.

Lemma key_total_absent (ts : list Transaction.t) (k : string) :
  ~ In k (map key ts) -> Spec.key_total key ts k == 0.
Proof.
  intros H. unfold Spec.key_total.
  rewrite (having_absent key k ts H). reflexivity.
Qed.

(** The tally has one property per key, in first-encountered order, and
    holds the summed amount of the key. *)
Lemma tally_keyed (ts : list Transaction.t) :
  exists g : string -> Q,
    Summary.tally key ts
    = Group.keyed g (Spec.first_seen (map key ts)) /\
    forall k, In k (map key ts) -> g k == Spec.key_total key ts k.
Proof.
  induction ts as [|t ts IH] using rev_ind.
  - exists (fun _ => 0). split; [reflexivity | intros k []].
  - destruct IH as (g & Hg & Hv).
    unfold Summary.tally in *. rewrite fold_left_app. simpl. rewrite Hg.
    rewrite get_keyed, map_app. simpl. rewrite first_seen_snoc.
    set (v := Summary.or_zero
                (if existsb (String.eqb (key t))
                            (Spec.first_seen (map key ts))
                 then Some (g (key t)) else None)
              + Transaction.finalAmount t).
    exists (fun n => if (n =? key t)%string then v else g n).
    assert (Hval : forall k, In k (map key ts ++ [key t]) ->
              (if (k =? key t)%string then v else g k)
              == Spec.key_total key (ts ++ [t]) k).
    { intros k Hk. rewrite key_total_snoc, (String.eqb_sym k).
      destruct (String.eqb_spec (key t) k) as [<-|Hne].
      - subst v.
        destruct (existsb (String.eqb (key t))
                          (Spec.first_seen (map key ts))) eqn:E.
        + rewrite or_zero_value, Hv; [reflexivity|].
          apply first_seen_In, existsb_eqb_In, E.
        + rewrite key_total_absent; [reflexivity|].
          rewrite <- first_seen_In. apply existsb_eqb_notIn, E.
      - rewrite Hv; [ring|]. apply in_app_or in Hk.
        destruct Hk as [Hk|[Hk|[]]]; [exact Hk | congruence]. }
    destruct (existsb (String.eqb (key t)) (Spec.first_seen (map key ts)))
      eqn:E.
    + assert (E' : existsb (String.eqb (key t)) (map key ts) = true).
      { apply existsb_eqb_In, first_seen_In, existsb_eqb_In, E. }
      rewrite E', set_keyed_old by (exact E || apply first_seen_NoDup).
      split; [reflexivity | exact Hval].
    + assert (E' : existsb (String.eqb (key t)) (map key ts) = false).
      { apply existsb_eqb_notIn. rewrite <- first_seen_In.
        apply existsb_eqb_notIn, E. }
      rewrite E', set_keyed_new by exact E.
      split; [reflexivity | exact Hval].
Qed.

(** The winner is the first key of the enumeration with the highest
    sum; the empty key is shown as [None]. *)
Lemma top_first_maximum (t0 : Transaction.t) (rest : list Transaction.t) :
  let ts := t0 :: rest in
  exists k : string,
    Spec.first_maximum
      (Spec.enumeration_order (Spec.first_seen (map key ts)))
      (Spec.key_total key ts) k /\
    Summary.top (Summary.tally key ts)
    = if (k =? "")%string then "None" else k.
Proof.
  intros ts. destruct (tally_keyed ts) as (g & Hg & Hv).
  unfold Summary.top. rewrite Hg, entries_keyed.
  set (order := Spec.enumeration_order (Spec.first_seen (map key ts))).
  assert (Hin : forall k, In k order -> In k (map key ts)).
  { intros k Hk. apply first_seen_In, enumeration_order_In, Hk. }
  destruct (JS.sort (fun a b => snd b - snd a) (Group.keyed g order))
    as [|[k v] sorted] eqn:Es.
  - apply (sort_nil (@snd string Q)) in Es.
    apply map_eq_nil in Es.
    assert (In (key t0) order) as Hk.
    { apply enumeration_order_In, first_seen_In. left. reflexivity. }
    rewrite Es in Hk. destruct Hk.
  - apply (sort_head (@snd string Q)) in Es.
    destruct Es as (l1 & l2 & Hl & H1 & H2).
    unfold Group.keyed in Hl. apply map_eq_app in Hl.
    destruct Hl as (e1 & e' & He & <- & Hl).
    destruct e' as [|k' e2]; [discriminate|]. simpl in Hl.
    injection Hl as -> <- <-.
    exists k. split; [|reflexivity].
    exists e1, e2. split; [exact He|].
    assert (Hk : In k (map key ts)).
    { apply Hin. rewrite He. apply in_or_app. right. left. reflexivity. }
    split.
    + rewrite Forall_map in H1. simpl in H1.
      rewrite Forall_forall in *. intros n Hn.
      rewrite <- (Hv n), <- (Hv k); [apply H1, Hn | exact Hk |].
      apply Hin. rewrite He. apply in_or_app. left. exact Hn.
    + rewrite Forall_map in H2. simpl in H2.
      rewrite Forall_forall in *. intros n Hn.
      rewrite <- (Hv n), <- (Hv k); [apply H2, Hn | exact Hk |].
      apply Hin. rewrite He. apply in_or_app. right. right. exact Hn.
Qed.
End Tally.




(* ================================================================= *)
(** ** The section 8 examples, run *)

Lemma summarize_totals_sample :
  Permutation
    (filter is_sale Sample.sale_and_refund
     ++ filter is_refund Sample.sale_and_refund)
    Sample.sale_and_refund /\
  Stats.netRevenue (Summary.computeStats Sample.sale_and_refund) = 15.
Proof.
  destruct (summarize_totals
              (setTransactions Sample.sale_and_refund
                               (Sample.state Sample.jan1 Sample.jan1)))
    as (_ & _ & _ & _ & _ & Hperm & _ & _ & Hnet).
  split.
  - apply Hperm. intros t [<-|[<-|[]]]; [left | right]; reflexivity.
  - reflexivity.
Defined.

Lemma averageTransaction_sample :
  Stats.averageTransaction (Summary.computeStats Sample.sale_and_refund)
  == 7.5.
Proof.
  destruct averageTransaction_defined as (_ & _ & Hex).
  destruct (Hex (setTransactions Sample.sale_and_refund
                                 (Sample.state Sample.jan1 Sample.jan1))
                (Sample.tx "t1" "VIP" Blank 25 "cash"
                           "2024-01-01T20:00:00.000Z" 0)
                (Sample.tx "t2" "VIP" Blank 10 "cash"
                           "2024-01-01T21:00:00.000Z" 1)
                eq_refl eq_refl eq_refl eq_refl eq_refl)
    as (_ & _ & _ & Havg).
  exact Havg.
Defined.

(* ================================================================= *)
(** ** Reloading the reports *)

Lemma loadDailyReports_keeps (db : Store.Db) (st : State) :
  transactions (Daily.loadDailyReports db st) = transactions st /\
  stats (Daily.loadDailyReports db st) = stats st /\
  dateRange (Daily.loadDailyReports db st) = dateRange st /\
  filterMemberType (Daily.loadDailyReports db st) = filterMemberType st /\
  filterPaymentMethod (Daily.loadDailyReports db st) = filterPaymentMethod st.
Proof.
  unfold Daily.loadDailyReports.
  destruct (Daily.buildDailyReports db _ _); repeat split.
Qed.

(** X1. After [loadReportsData] the list shown is the freshly fetched and
    filtered one, but the summary is computed from the list the component
    held before: on the first load, whatever the store holds, the summary
    is that of no transactions.  A second reload on the same store leaves
    the list as it is and brings the summary in line with it. *)
Theorem reload_summary_lags (db : Store.Db) (st : State) :
  let st1 := loadReportsData db st in
  let st2 := loadReportsData db st1 in
  transactions st1
  = applyFilters (filterMemberType st) (filterPaymentMethod st)
                 (allTransactions db st) /\
  stats st1 = Summary.computeStats (transactions st) /\
  (transactions st = [] -> stats st1 = Summary.computeStats []) /\
  transactions st2 = transactions st1 /\
  stats st2 = Summary.computeStats (transactions st1).
Proof.
  intros st1 st2.
  assert (H1 : forall s : State,
             transactions (loadReportsData db s)
             = applyFilters (filterMemberType s) (filterPaymentMethod s)
                            (allTransactions db s)).
  { intros s. unfold loadReportsData. simpl.
    destruct (loadDailyReports_keeps db (loadTransactions db s)) as (-> & _).
    reflexivity. }
  assert (H2 : forall s : State,
             stats (loadReportsData db s)
             = Summary.computeStats (transactions s)) by reflexivity.
  assert (H3 : dateRange st1 = dateRange st /\
               filterMemberType st1 = filterMemberType st /\
               filterPaymentMethod st1 = filterPaymentMethod st).
  { unfold st1, loadReportsData. simpl.
    destruct (loadDailyReports_keeps db (loadTransactions db st))
      as (_ & _ & -> & -> & ->).
    repeat split. }
  destruct H3 as (Hd & Hm & Hp).
  split; [apply H1|]. split; [apply H2|]. split.
  - intros E. unfold st1. rewrite (H2 st), E. reflexivity.
  - split; [|apply H2].
    unfold st2. rewrite (H1 st1), Hm, Hp.
    unfold allTransactions. rewrite Hd. symmetry. apply (H1 st).
Qed.

Lemma reload_summary_lags_first_load :
  let st1 :=
    loadReportsData Sample.beer_db (Sample.state Sample.jan1 Sample.jan2) in
  List.length (transactions st1) = 3%nat /\
  Stats.totalTransactions (stats st1) = 0%nat /\
  Stats.topMembershipType (stats st1) = "None".
Proof.
  destruct (reload_summary_lags
              Sample.beer_db (Sample.state Sample.jan1 Sample.jan2))
    as (Ht & _ & Hs & _).
  intros st1. unfold st1. rewrite Ht, (Hs eq_refl).
  repeat split; vm_compute; reflexivity.
Defined.

(* ================================================================= *)
(** ** Ranges of days *)

(** X2. With an end date before the start date the loop body never runs:
    no payload is parsed, nothing can throw, and the reports in state are
    replaced by the empty list. *)
Theorem reversed_range_no_reports (db : Store.Db) (st : State) :
  (endDate (dateRange st) < startDate (dateRange st))%Z ->
  Daily.buildDailyReports db (startDate (dateRange st)) (endDate (dateRange st))
  = JS.Normal [] /\
  dailyReports (Daily.loadDailyReports db st) = [].
Proof.
  intros H.
  assert (E : Daily.buildDailyReports db (startDate (dateRange st))
                                      (endDate (dateRange st)) = JS.Normal []).
  { unfold Daily.buildDailyReports.
    replace (Z.to_nat (endDate (dateRange st) - startDate (dateRange st) + 1))
      with O by lia.
    reflexivity. }
  split; [exact E|]. unfold Daily.loadDailyReports. rewrite E. reflexivity.
Qed.

Lemma reversed_range_no_reports_sample :
  Daily.buildDailyReports Sample.broken_db Sample.jan2 Sample.jan1
  = JS.Normal [].
Proof.
  apply (reversed_range_no_reports
           Sample.broken_db (Sample.state Sample.jan2 Sample.jan1)).
  vm_compute. reflexivity.
Defined.

Lemma days_from_snoc (first : Z) (turns : nat) :
  Spec.days_from first (S turns)
  = Spec.days_from first turns ++ [(first + Z.of_nat turns)%Z].
Proof.
  revert first. induction turns as [|n IH]; intros first.
  - simpl. f_equal. lia.
  - change (Spec.days_from first (S (S n)))
      with (first :: Spec.days_from (first + 1)%Z (S n)).
    rewrite IH. simpl. do 2 f_equal. f_equal. lia.
Qed.



(* ================================================================= *)
(** ** Amounts split by key add up *)

Lemma total_app (l1 l2 : list Q) :
  Spec.total (l1 ++ l2) == Spec.total l1 + Spec.total l2.
Proof.
  induction l1 as [|q l1 IH]; simpl; [ring | rewrite IH; ring].
Qed.

Lemma total_perm (l1 l2 : list Q) :
  Permutation l1 l2 -> Spec.total l1 == Spec.total l2.
Proof.
  induction 1 as [|q l1 l2 _ IH|p q l|l1 l2 l3 _ IH1 _ IH2]; simpl.
  - reflexivity.
  - rewrite IH. reflexivity.
  - ring.
  - rewrite IH1. exact IH2.
Qed.

Lemma total_map_eq {A : Type} (f g : A -> Q) (l : list A) :
  (forall x, In x l -> f x == g x) ->
  Spec.total (map f l) == Spec.total (map g l).
Proof.
  induction l as [|x l IH]; intros H; simpl; [reflexivity|].
  rewrite (H x (or_introl eq_refl)), IH; [reflexivity|].
  intros y Hy. apply H. right. exact Hy.
Qed.

Lemma total_nonneg (l : list Q) :
  Forall (fun q => 0 <= q) l -> 0 <= Spec.total l.
Proof.
  induction 1 as [|q l Hq _ IH]; simpl; lra.
Qed.

Section Split.
Context {X : Type}.
Variable key : X -> string.
Variable f : X -> Q.

Let share (l : list X) (k : string) : Q :=
  Spec.total (map f (filter (fun x => (key x =? k)%string) l)).

Lemma total_without (h : string -> Q) (k0 : string) (ks : list string) :
  NoDup ks ->
  Spec.total (map h ks)
  == (if existsb (String.eqb k0) ks then h k0 else 0)
     + Spec.total (map h (filter (fun m => negb (m =? k0)%string) ks)).
Proof.
  induction 1 as [|k ks Hk _ IH]; simpl; [ring|].
  rewrite IH, (String.eqb_sym k0 k).
  destruct (String.eqb_spec k k0) as [->|Hne]; simpl.
  - apply existsb_eqb_notIn in Hk. rewrite Hk. ring.
  - ring.
Qed.

Lemma shares_add_up (l : list X) :
  Spec.total (map (share l) (Spec.first_seen (map key l)))
  == Spec.total (map f l).
Proof.
  induction l as [|x l IH]; simpl; [reflexivity|].
  unfold share at 1. simpl. rewrite String.eqb_refl. simpl.
  rewrite <- IH.
  rewrite (total_without (share l) (key x)
             (Spec.first_seen (map key l)) (first_seen_NoDup _)).
  assert (E : Spec.total
                (map (share (x :: l))
                     (filter (fun m => negb (m =? key x)%string)
                             (Spec.first_seen (map key l))))
              == Spec.total
                   (map (share l)
                        (filter (fun m => negb (m =? key x)%string)
                                (Spec.first_seen (map key l))))).
  { apply total_map_eq. intros k Hk. apply filter_In in Hk.
    destruct Hk as [_ Hk]. apply negb_true_iff in Hk.
    rewrite String.eqb_sym in Hk. unfold share. simpl. rewrite Hk.
    reflexivity. }
  rewrite E.
  destruct (existsb (String.eqb (key x)) (Spec.first_seen (map key l)))
    eqn:Ex.
  - unfold share. ring.
  - assert (Hx : ~ In (key x) (map key l)).
    { rewrite <- first_seen_In. apply existsb_eqb_notIn, Ex. }
    rewrite (having_absent key (key x) l Hx). simpl. ring.
Qed.
End Split.

Lemma dayReport_Normal (db : Store.Db) (d : Z) (r : DailyReport.t) :
  Daily.dayReport db d = JS.Normal r -> r = Spec.report_of db d.
Proof.
  intros H.
  destruct (forallb (fun t => Spec.parses (Transaction.items t))
                    (filter is_sale (Daily.dayTransactions db d))) eqn:E.
  - rewrite (dayReport_parses db d E) in H. congruence.
  - destruct (dayReport_throws db d E) as [exn Hx]. congruence.
Qed.





(* ================================================================= *)
(** ** Filters and the summary *)

(** X6. Filtering an already filtered list by the same criteria changes
    nothing, and the two filters can be applied one after the other in
    either order. *)
Theorem filters_compose (memberType paymentMethod : string)
        (all : list Transaction.t) :
  applyFilters memberType paymentMethod
               (applyFilters memberType paymentMethod all)
  = applyFilters memberType paymentMethod all /\
  applyFilters memberType "all" (applyFilters "all" paymentMethod all)
  = applyFilters memberType paymentMethod all /\
  applyFilters "all" paymentMethod (applyFilters memberType "all" all)
  = applyFilters memberType paymentMethod all.
Proof.
  rewrite !applyFilters_keeps, !filter_twice. repeat split;
    apply filter_ext; intros t; unfold Spec.keeps; simpl;
    destruct (memberType =? "all")%string,
             (paymentMethod =? "all")%string,
             (Transaction.membershipType t =? memberType)%string,
             (Transaction.paymentMethod t =? paymentMethod)%string;
    reflexivity.
Qed.

Lemma top_single_key (key : Transaction.t -> string) (k0 : string)
      (ts : list Transaction.t) :
  ts <> [] ->
  (forall t, In t ts -> key t = k0) ->
  k0 <> EmptyString ->
  Summary.top (Summary.tally key ts) = k0.
Proof.
  intros Hne Hall Hk0. destruct ts as [|t0 rest]; [congruence|].
  destruct (top_first_maximum key t0 rest) as (k & (e1 & e2 & He & _) & Ht).
  assert (Hk : In k (map key (t0 :: rest))).
  { apply first_seen_In, enumeration_order_In. rewrite He.
    apply in_or_app. right. left. reflexivity. }
  apply in_map_iff in Hk. destruct Hk as (t & <- & Hin).
  rewrite (Hall t Hin) in *. rewrite Ht.
  apply String.eqb_neq in Hk0. rewrite Hk0. reflexivity.
Qed.

(** X7. When the list is filtered by a membership type (other than [all]
    and the empty text) and something is left, the top membership type of
    its summary is that type; likewise for a payment method. *)
Theorem filtered_top_is_the_filter (memberType paymentMethod : string)
        (all : list Transaction.t) :
  let kept := applyFilters memberType paymentMethod all in
  kept <> [] ->
  (memberType <> "all" -> memberType <> EmptyString ->
   Stats.topMembershipType (Summary.computeStats kept) = memberType) /\
  (paymentMethod <> "all" -> paymentMethod <> EmptyString ->
   Stats.topPaymentMethod (Summary.computeStats kept) = paymentMethod).
Proof.
  intros kept Hne.
  assert (Hk : forall t, In t kept ->
                 Spec.keeps memberType paymentMethod t = true).
  { intros t Ht. unfold kept in Ht. rewrite applyFilters_keeps in Ht.
    apply filter_In in Ht. tauto. }
  split; intros Hall Hempty; simpl;
    apply top_single_key; try assumption;
    intros t Ht; specialize (Hk t Ht); unfold Spec.keeps in Hk;
    apply andb_true_iff in Hk; destruct Hk as [H1 H2];
    apply String.eqb_neq in Hall.
  - rewrite Hall in H1. simpl in H1. apply String.eqb_eq, H1.
  - rewrite Hall in H2. simpl in H2. apply String.eqb_eq, H2.
Qed.

Lemma filtered_top_is_the_filter_sample :
  Stats.topMembershipType
    (Summary.computeStats (applyFilters "Regular" "all" Sample.beer_sales))
  = "Regular".
Proof.
  apply (filtered_top_is_the_filter "Regular" "all" Sample.beer_sales);
    vm_compute; discriminate.
Defined.

Lemma top_shown (key : Transaction.t -> string) (ts : list Transaction.t) :
  Summary.top (Summary.tally key ts) <> EmptyString /\
  (Summary.top (Summary.tally key ts) = "None" \/
   In (Summary.top (Summary.tally key ts)) (map key ts)).
Proof.
  destruct ts as [|t0 rest].
  - split; [discriminate | left; reflexivity].
  - destruct (top_first_maximum key t0 rest) as (k & (e1 & e2 & He & _) & Ht).
    rewrite Ht. destruct (String.eqb_spec k "") as [->|Hk].
    + split; [discriminate | left; reflexivity].
    + split; [exact Hk|]. right.
      apply first_seen_In, enumeration_order_In. rewrite He.
      apply in_or_app. right. left. reflexivity.
Qed.

(** X8. Whatever the transactions, the two top keys of the summary are
    never the empty text: each is the text [None] or a key that occurs in
    the transactions. *)
Theorem top_keys_are_shown (st : State) :
  let s := stats (Summary.calculateStats st) in
  Stats.topMembershipType s <> EmptyString /\
  (Stats.topMembershipType s = "None" \/
   In (Stats.topMembershipType s)
      (map Transaction.membershipType (transactions st))) /\
  Stats.topPaymentMethod s <> EmptyString /\
  (Stats.topPaymentMethod s = "None" \/
   In (Stats.topPaymentMethod s)
      (map Transaction.paymentMethod (transactions st))).
Proof.
  simpl.
  destruct (top_shown Transaction.membershipType (transactions st)) as [H1 H2].
  destruct (top_shown Transaction.paymentMethod (transactions st)) as [H3 H4].
  repeat split; assumption.
Qed.

(** X9. When no [finalAmount] is negative, the totals of the summary are
    not negative and the net revenue lies between minus the refunds and
    the sales. *)
Theorem summary_bounds (st : State) :
  (forall t, In t (transactions st) -> 0 <= Transaction.finalAmount t) ->
  let s := stats (Summary.calculateStats st) in
  0 <= Stats.totalSales s /\
  0 <= Stats.totalRefunds s /\
  Stats.netRevenue s <= Stats.totalSales s /\
  - Stats.totalRefunds s <= Stats.netRevenue s.
Proof.
  intros H s.
  assert (Hpos : forall p : Transaction.t -> bool,
             0 <= sum_finalAmount (filter p (transactions st))).
  { intros p. rewrite sum_finalAmount_total. apply total_nonneg.
    apply Forall_map, Forall_forall. intros t Ht.
    apply filter_In in Ht. apply H. tauto. }
  pose proof (Hpos is_sale) as Hs. pose proof (Hpos is_refund) as Hr.
  subst s. simpl. repeat split; lra.
Qed.

Lemma summary_bounds_sample :
  Stats.netRevenue (Summary.computeStats Sample.sale_and_refund)
  <= Stats.totalSales (Summary.computeStats Sample.sale_and_refund).
Proof.
  apply (summary_bounds
           (setTransactions Sample.sale_and_refund
                            (Sample.state Sample.jan1 Sample.jan1))).
  intros t [<-|[<-|[]]]; vm_compute; discriminate.
Defined.

Lemma flags_split (l : list Transaction.t) :
  List.length l
  = (List.length (filter is_sale l) + List.length (filter is_refund l)
     + List.length (Measure.unflagged l))%nat.
Proof.
  unfold Measure.unflagged, is_sale, is_refund.
  induction l as [|t l IH]; simpl; [reflexivity|].
  destruct (Z.eqb_spec (Transaction.isRefund t) 0) as [E0|N0];
    destruct (Z.eqb_spec (Transaction.isRefund t) 1) as [E1|N1];
    simpl; lia.
Qed.

(** X10. A transaction whose [isRefund] is neither 0 nor 1 is counted in
    [totalTransactions], the divisor of the average, but enters neither
    total: the totals are those of the list without such
    transactions. *)
Theorem unflagged_transactions (st : State) :
  let ts := transactions st in
  let s := stats (Summary.calculateStats st) in
  let flagged := filter (fun t => is_sale t || is_refund t) ts in
  Stats.totalTransactions s
  = (List.length (filter is_sale ts) + List.length (filter is_refund ts)
     + List.length (Measure.unflagged ts))%nat /\
  Stats.totalSales s = Stats.totalSales (Summary.computeStats flagged) /\
  Stats.totalRefunds s = Stats.totalRefunds (Summary.computeStats flagged) /\
  Stats.netRevenue s = Stats.netRevenue (Summary.computeStats flagged).
Proof.
  intros ts s flagged. subst s. simpl. fold ts.
  assert (Hs : filter is_sale flagged = filter is_sale ts).
  { unfold flagged. rewrite filter_twice. apply filter_ext. intros t.
    destruct (is_sale t), (is_refund t); reflexivity. }
  assert (Hr : filter is_refund flagged = filter is_refund ts).
  { unfold flagged. rewrite filter_twice. apply filter_ext. intros t.
    destruct (is_sale t), (is_refund t); reflexivity. }
  rewrite Hs, Hr. split; [apply flags_split|]. repeat split.
Qed.

(* ================================================================= *)
(** ** Commas in an exported row *)

Lemma occurrences_app (c : ascii) (s1 s2 : string) :
  Measure.occurrences c (s1 ++ s2)
  = (Measure.occurrences c s1 + Measure.occurrences c s2)%nat.
Proof.
  induction s1 as [|a s1 IH]; simpl; [reflexivity|]. rewrite IH. lia.
Qed.

Lemma occurrences_join (l : list string) :
  Measure.occurrences "," (JS.join "," l)
  = (list_sum (map (Measure.occurrences ",") l) + (List.length l - 1))%nat.
Proof.
  unfold JS.join. induction l as [|s l IH]; [reflexivity|].
  destruct l as [|s' l].
  - simpl. lia.
  - change (String.concat "," (s :: s' :: l))
      with (s ++ "," ++ String.concat "," (s' :: l))%string.
    rewrite !occurrences_app, IH. simpl. lia.
Qed.

Lemma occurrences_cell (v : Csv.Value) :
  Measure.occurrences "," (Csv.cell v)
  = Measure.occurrences "," (Measure.text_of v).
Proof.
  destruct v as [s|text]; [|reflexivity].
  unfold Csv.cell, Measure.text_of.
  destruct (JS.includes s ","); [|reflexivity].
  rewrite !occurrences_app.
  change (Measure.occurrences "," Csv.quote) with 0%nat. lia.
Qed.

(** X11. A row of the export holds one comma between two fields and,
    besides, every comma of its values: putting a value between quotes
    leaves its commas in place.  The header holds the commas between the
    first record's field names and those inside the names, which are
    never quoted. *)
Theorem export_commas :
  (forall row : Csv.Row,
      Measure.occurrences "," (Csv.row_text row)
      = (List.length row - 1
         + list_sum
             (map (fun kv => Measure.occurrences "," (Measure.text_of (snd kv)))
                  row))%nat) /\
  (forall (first : Csv.Row) (rest : list Csv.Row),
      Measure.occurrences "," (Csv.headers_of (first :: rest))
      = (List.length first - 1
         + list_sum (map (fun kv => Measure.occurrences "," (fst kv)) first))%nat).
Proof.
  split.
  - intros row. unfold Csv.row_text.
    rewrite occurrences_join, length_map, map_map, Nat.add_comm.
    do 2 f_equal. apply map_ext. intros kv. apply occurrences_cell.
  - intros first rest. unfold Csv.headers_of.
    rewrite occurrences_join, length_map, map_map, Nat.add_comm.
    reflexivity.
Qed.

(* ================================================================= *)
(** ** Roles *)

Lemma role_level_known (r : string) :
  Dashboard.role_level (Some r)
  = if (r =? "admin")%string then 3%nat
    else if (r =? "manager")%string then 2%nat
    else if (r =? "cashier")%string then 1%nat
    else 0%nat.
Proof.
  unfold Dashboard.role_level, Dashboard.roleHierarchy. cbn [JS.get].
  rewrite (String.eqb_sym "admin"), (String.eqb_sym "manager"),
    (String.eqb_sym "cashier").
  destruct (r =? "admin")%string, (r =? "manager")%string,
    (r =? "cashier")%string; reflexivity.
Qed.

Lemma role_level_max (role : option string) :
  (Dashboard.role_level role <= 3)%nat.
Proof.
  destruct role as [r|]; [|simpl; lia]. rewrite role_level_known.
  destruct (r =? "admin")%string, (r =? "manager")%string,
    (r =? "cashier")%string; lia.
Qed.


(* ================================================================= *)
(** ** The first sign-in *)

(** X13. [initializeUser] leaves a profile with the user's email in state
    and in the users table, adding at most one row.  A profile it creates
    has the role cashier, so it passes the cashier check and fails the
    manager and admin checks.  Run again on the table it left, it adds no
    row, shows no welcome and finds the same profile. *)
Theorem initializeUser_once (user : AuthUser.t) (table : list Profile.t) :
  let s1 := Dashboard.initializeUser user table in
  let s2 := Dashboard.initializeUser user (Dashboard.users s1) in
  (exists p : Profile.t,
      Dashboard.userProfile s1 = Some p /\
      Profile.email p = AuthUser.email user /\
      In p (Dashboard.users s1) /\
      (Dashboard.users s1 = table \/ Dashboard.users s1 = table ++ [p]) /\
      (Dashboard.welcomed s1 = true ->
       Profile.role p = Some "cashier" /\
       Profile.id p = AuthUser.id user /\
       Dashboard.canAccess (Some p) "cashier" = true /\
       Dashboard.canAccess (Some p) "manager" = false /\
       Dashboard.canAccess (Some p) "admin" = false)) /\
  Dashboard.users s2 = Dashboard.users s1 /\
  Dashboard.userProfile s2 = Dashboard.userProfile s1 /\
  Dashboard.welcomed s2 = false.
Proof.
  intros s1 s2. subst s2 s1. unfold Dashboard.initializeUser.
  destruct (filter (fun u => (Profile.email u =? AuthUser.email user)%string)
                   table) as [|first others] eqn:E.
  - simpl. rewrite filter_app, E. simpl. rewrite String.eqb_refl. simpl.
    split; [|repeat split].
    eexists. split; [reflexivity|]. split; [reflexivity|].
    split; [apply in_or_app; right; left; reflexivity|].
    split; [right; reflexivity|]. intros _. repeat split.
  - simpl. rewrite E.
    assert (Hf : In first
                    (filter (fun u => (Profile.email u =? AuthUser.email user)%string)
                            table)) by (rewrite E; left; reflexivity).
    apply filter_In in Hf. destruct Hf as [Hin He].
    split; [|repeat split].
    exists first. split; [reflexivity|].
    split; [apply String.eqb_eq, He|]. split; [exact Hin|].
    split; [left; reflexivity|]. simpl. discriminate.
Qed.

(* ================================================================= *)
(** ** The cart *)

Lemma getCartTotal_total (cart : list CartItem.t) :
  Dashboard.getCartTotal cart == Spec.total (map Measure.line_revenue cart).
Proof. apply (fold_sum_total Measure.line_revenue). Qed.

Lemma filter_index_past (from index : nat) (cart : list CartItem.t) :
  (index < from)%nat -> Dashboard.filter_index from index cart = cart.
Proof.
  revert from. induction cart as [|item cart IH]; intros from H; simpl;
    [reflexivity|].
  destruct (Nat.eqb_spec from index) as [E|_]; [lia|].
  rewrite IH by lia. reflexivity.
Qed.

Lemma filter_index_beyond (from index : nat) (cart : list CartItem.t) :
  (from + List.length cart <= index)%nat ->
  Dashboard.filter_index from index cart = cart.
Proof.
  revert from. induction cart as [|item cart IH]; intros from H; simpl in *;
    [reflexivity|].
  destruct (Nat.eqb_spec from index) as [E|_]; [lia|].
  rewrite IH by lia. reflexivity.
Qed.

Lemma filter_index_at (from : nat) (before after : list CartItem.t)
      (item : CartItem.t) :
  Dashboard.filter_index from (from + List.length before)
                         (before ++ item :: after)
  = before ++ after.
Proof.
  revert from. induction before as [|b before IH]; intros from; simpl.
  - rewrite Nat.add_0_r, Nat.eqb_refl. apply filter_index_past. lia.
  - destruct (Nat.eqb_spec from (from + S (List.length before))) as [E|_];
      [lia|].
    f_equal. replace (from + S (List.length before))%nat
      with (S from + List.length before)%nat by lia.
    apply IH.
Qed.

(** X14. Adding an item raises the cart total by its price and puts it
    last; removing the last position undoes the addition.  Removing a
    position that holds an item shortens the cart by one and lowers the
    total by that line's [price * quantity], the other lines keeping
    their order; removing a position past the end changes nothing. *)
Theorem cart_steps (cart : list CartItem.t) :
  (forall (name : string) (price : Q),
      Dashboard.getCartTotal (Dashboard.addToCart name price cart)
      == Dashboard.getCartTotal cart + price /\
      Dashboard.removeFromCart (List.length cart)
                               (Dashboard.addToCart name price cart)
      = cart) /\
  (forall (index : nat) (item : CartItem.t),
      nth_error cart index = Some item ->
      Dashboard.removeFromCart index cart
      = firstn index cart ++ skipn (S index) cart /\
      S (List.length (Dashboard.removeFromCart index cart)) = List.length cart /\
      Dashboard.getCartTotal (Dashboard.removeFromCart index cart)
      == Dashboard.getCartTotal cart
         - CartItem.price item * CartItem.quantity item) /\
  (forall index : nat,
      (List.length cart <= index)%nat ->
      Dashboard.removeFromCart index cart = cart).
Proof.
  split; [|split].
  - intros name price. split.
    + unfold Dashboard.addToCart. rewrite !getCartTotal_total, map_app,
        total_app. cbn [map Spec.total fold_right].
      unfold Measure.line_revenue at 2. simpl. ring.
    + unfold Dashboard.removeFromCart, Dashboard.addToCart.
      pose proof (filter_index_at 0 cart [] (Sample.line name price 1)) as Hf.
      simpl in Hf. unfold Sample.line in Hf. rewrite Hf. apply app_nil_r.
  - intros index item H.
    apply nth_error_split in H. destruct H as (l1 & l2 & -> & <-).
    unfold Dashboard.removeFromCart.
    pose proof (filter_index_at 0 l1 l2 item) as Hf. simpl in Hf.
    rewrite Hf. clear Hf.
    split; [|split].
    + clear. induction l1 as [|b l1 IH]; simpl; [reflexivity|].
      f_equal. exact IH.
    + rewrite !length_app. simpl. lia.
    + rewrite !getCartTotal_total, !map_app, !total_app. simpl.
      unfold Measure.line_revenue at 4. ring.
  - intros index H. apply filter_index_beyond. simpl. exact H.
Qed.

Lemma cart_steps_sample :
  Dashboard.removeFromCart 0
    [Sample.line "Mojito" 12 1; Sample.line "Margarita" 13 1]
  = [Sample.line "Margarita" 13 1].
Proof.
  destruct (cart_steps [Sample.line "Mojito" 12 1; Sample.line "Margarita" 13 1])
    as (_ & H & _).
  destruct (H 0%nat (Sample.line "Mojito" 12 1) eq_refl) as [E _].
  exact E.
Defined.

Lemma filter_index_Forall (P : CartItem.t -> Prop) (from index : nat)
      (cart : list CartItem.t) :
  Forall P cart -> Forall P (Dashboard.filter_index from index cart).
Proof.
  intros H. revert from. induction H as [|item cart Hi _ IH]; intros from;
    simpl; [constructor|].
  destruct (from =? index)%nat; [apply IH | constructor; [exact Hi | apply IH]].
Qed.

Lemma run_snoc (actions : list Dashboard.CartAction) (a : Dashboard.CartAction) :
  Dashboard.run (actions ++ [a]) = Dashboard.act (Dashboard.run actions) a.
Proof. unfold Dashboard.run. rewrite fold_left_app. reflexivity. Qed.

(** X15. Whatever the cashier does, starting from the empty cart, every
    line of the cart has quantity 1 and the cart total is the sum of the
    prices of its lines: adding an item that is already in the cart makes
    a second line.  After a payment or a clearing the cart is empty and
    its total is 0. *)
Theorem cart_lines (actions : list Dashboard.CartAction) :
  let cart := Dashboard.run actions in
  Forall (fun item => CartItem.quantity item = 1) cart /\
  Dashboard.getCartTotal cart == Spec.total (map CartItem.price cart) /\
  (forall (name : string) (price : Q),
      Dashboard.run (actions ++ [Dashboard.Add name price])
      = cart ++ [Sample.line name price 1]) /\
  Dashboard.run (actions ++ [Dashboard.Pay]) = [] /\
  Dashboard.run (actions ++ [Dashboard.Clear]) = [] /\
  Dashboard.getCartTotal (Dashboard.run (actions ++ [Dashboard.Pay])) = 0.
Proof.
  intros cart.
  assert (Hq : Forall (fun item => CartItem.quantity item = 1) cart).
  { unfold cart. induction actions as [|a actions IH] using rev_ind.
    - constructor.
    - rewrite run_snoc. destruct a as [name price|index| |]; simpl.
      + apply Forall_app. split; [exact IH|]. constructor; [reflexivity|].
        constructor.
      + apply filter_index_Forall, IH.
      + constructor.
      + constructor. }
  split; [exact Hq|]. split.
  - rewrite getCartTotal_total. apply total_map_eq. intros item Hi.
    rewrite Forall_forall in Hq. unfold Measure.line_revenue.
    rewrite (Hq item Hi). ring.
  - split; [intros name price; apply run_snoc|].
    rewrite !run_snoc. repeat split.
Qed.

(* ================================================================= *)
(** ** The dashboard figures *)


